(** * VRChat AI backend service: knowledge matcher, chat handler, notifier

    A shallow embedding of the monolithic backend script of [Main.py]
    ([load_knowledge_base], [send_osc_to_vrchat], [send_discord_notification],
    [get_ai_response], [handle_chat_message]; then [load_config],
    [initialize_osc_client], [handle_interaction] and the initialisation
    calls of the main block) together with the properties its specification
    states about them and further properties read off the code.

    Modelling conventions.
    - A Python [str] is a list of characters; characters are the code points
      U+0000..U+00FF, carried by [ascii].  [lower], [strip] and the
      whitespace class follow Python's behaviour on that range.
    - The knowledge base is the dictionary produced by [json.load]: an
      association list in iteration (insertion) order whose values are topic
      records in the documented knowledge-file shape (optional [aliases],
      [description], [details], [website], [contact], all strings).
    - Module-level globals ([CONFIG], [knowledge_base], [vrchat_osc_client])
      and the observable effects (printed lines, OSC messages handed to the
      client, HTTP requests issued) are fields of one [World] record that is
      threaded through a state-and-exception monad.
    - The two functions whose behaviour on dictionaries outside the
      documented shape matters ([get_ai_response] on the knowledge base,
      [send_discord_notification] on the configuration) are modelled a
      second time over arbitrary JSON values ([raw_get_ai_response],
      [raw_send_discord_notification]) and shown to agree with the typed
      functions on typed data.
    - Library calls whose outcome the program cannot determine (reading and
      decoding the knowledge file, the UDP send, the HTTP POST) are
      parameters of the development. *)

From Stdlib Require Import List Ascii String Bool Arith ZArith Lia DecimalString.
Import ListNotations.

(* ================================================================== *)
(** ** Python strings *)

Module PyStr.

Definition str := list ascii.

(** String literals of the source text. *)
Definition lit (s : string) : str := list_ascii_of_string s.

Definition code (c : ascii) : nat := nat_of_ascii c.

Definition between (lo hi n : nat) : bool := (lo <=? n) && (n <=? hi).

(** [c.isspace()] on U+0000..U+00FF: TAB..CR, FS..US, SPACE, NEL, NBSP. *)
Definition isspace (c : ascii) : bool :=
  between 9 13 (code c) || between 28 32 (code c)
  || (code c =? 133) || (code c =? 160).

(** Upper-case letters of U+0000..U+00FF: A..Z, U+00C0..U+00D6,
    U+00D8..U+00DE; each one lowers to the code point 32 above it. *)
Definition isupper (c : ascii) : bool :=
  between 65 90 (code c) || between 192 214 (code c)
  || between 216 222 (code c).

Definition lower_char (c : ascii) : ascii :=
  if isupper c then ascii_of_nat (code c + 32) else c.

(** [s.lower()] *)
Definition lower (s : str) : str := map lower_char s.

Fixpoint dropwhile (p : ascii -> bool) (s : str) : str :=
  match s with
  | [] => []
  | c :: s' => if p c then dropwhile p s' else s
  end.

(** [s.lstrip()], [s.rstrip()], [s.strip()] *)
Definition lstrip (s : str) : str := dropwhile isspace s.
Definition rstrip (s : str) : str := rev (lstrip (rev s)).
Definition strip (s : str) : str := rstrip (lstrip s).

(** [s == t] *)
Fixpoint str_eqb (s t : str) : bool :=
  match s, t with
  | [], [] => true
  | c :: s', d :: t' => Ascii.eqb c d && str_eqb s' t'
  | _, _ => false
  end.

(** [s.startswith(prefix)] *)
Fixpoint startswith (s prefix : str) {struct prefix} : bool :=
  match prefix with
  | [] => true
  | p :: prefix' =>
      match s with
      | [] => false
      | c :: s' => Ascii.eqb c p && startswith s' prefix'
      end
  end.

(** [s.endswith(suffix)] *)
Definition endswith (s suffix : str) : bool :=
  startswith (rev s) (rev suffix).

(** [sub in s] *)
Fixpoint str_in (sub s : str) : bool :=
  startswith s sub ||
  match s with
  | [] => false
  | _ :: s' => str_in sub s'
  end.

(** [sep.join(parts)] *)
Fixpoint join (sep : str) (parts : list str) : str :=
  match parts with
  | [] => []
  | [p] => p
  | p :: rest => p ++ sep ++ join sep rest
  end.

(** Truthiness of a string: [bool(s)]. *)
Definition truthy (s : str) : bool :=
  match s with [] => false | _ :: _ => true end.

End PyStr.
Import PyStr.

(* ================================================================== *)
(** ** Knowledge base *)

(** [d.get(key, default)] on an optional field. *)
Definition get {A : Type} (field : option A) (default : A) : A :=
  match field with
  | Some v => v
  | None => default
  end.

(** One value of the knowledge-base dictionary.  A field is [None] when the
    JSON object has no such key. *)
Record TopicRecord : Type := mkTopic {
  aliases : option (list str);
  description : option str;
  details : option str;
  website : option str;
  contact : option str
}.

(** The dictionary [knowledge_base], as the sequence [knowledge_base.items()]
    in iteration order. *)
Definition KnowledgeBase := list (str * TopicRecord).

Definition nl : str := ["010"%char].

(* ================================================================== *)
(** ** AI core: [get_ai_response] *)

(** [[key.lower()] + [alias.lower() for alias in data.get("aliases", [])]] *)
Definition triggers (key : str) (data : TopicRecord) : list str :=
  [lower key] ++ map lower (get (aliases data) []).

(** The body of the generator handed to [any], for one trigger. *)
Definition trigger_hit (message_lower trigger : str) : bool :=
  str_in (lit " " ++ trigger ++ lit " ") (lit " " ++ message_lower ++ lit " ")
  || startswith message_lower trigger
  || endswith message_lower trigger
  || str_eqb message_lower trigger.

(** The condition of the [if] inside the loop. *)
Definition topic_matches (message_lower key : str) (data : TopicRecord) : bool :=
  existsb (trigger_hit message_lower) (triggers key data).

(** The response built in the body of the [if]. *)
Definition topic_response (key : str) (data : TopicRecord) : str :=
  let description := get (description data) (lit "No description available.") in
  let details := get (details data) [] in
  let website := get (website data) [] in
  let contact := get (contact data) [] in
  let response := lit "Regarding " ++ key ++ lit ":" ++ nl in
  let response := response ++ description in
  let response :=
    if truthy details then response ++ nl ++ lit "More Info: " ++ details
    else response in
  let response :=
    if truthy website then response ++ nl ++ lit "Website: " ++ website
    else response in
  let response :=
    if truthy contact then response ++ nl ++ lit "Contact: " ++ contact
    else response in
  response.

(** The [for key, data in knowledge_base.items()] loop with its [break]:
    the item at which the loop stops, if any. *)
Fixpoint matched_topic (items : KnowledgeBase) (message_lower : str)
  : option (str * TopicRecord) :=
  match items with
  | [] => None
  | (key, data) :: rest =>
      if topic_matches message_lower key data then Some (key, data)
      else matched_topic rest message_lower
  end.

Definition sorry_response (player_name : str) : str :=
  lit "Sorry " ++ player_name ++
  lit ", I didn't quite catch that. You can ask me about the businesses or topics I know.".

Definition hello_response (player_name : str) : str :=
  lit "Hello " ++ player_name ++
  lit "! How can I help? Ask me about the businesses or items here.".

Definition help_response (knowledge_base : KnowledgeBase) : str :=
  let business_names := join (lit ", ") (map fst knowledge_base) in
  let business_names :=
    if negb (truthy business_names) then lit "any specific topics yet"
    else business_names in
  lit "I can tell you about: " ++ business_names ++
  lit ". I also notify owners when certain items are interacted with.".

Definition welcome_response (player_name : str) : str :=
  lit "You're welcome, " ++ player_name ++ lit "!".

Definition get_ai_response (knowledge_base : KnowledgeBase)
    (player_name message : str) : str :=
  let message_lower := strip (lower message) in
  let response := sorry_response player_name in
  let '(response, matched) :=
    match matched_topic knowledge_base message_lower with
    | Some (key, data) => (topic_response key data, true)
    | None => (response, false)
    end in
  let response :=
    if negb matched then
      if str_in (lit "hello") message_lower || str_in (lit "hi") message_lower
      then hello_response player_name
      else if str_in (lit "help") message_lower
              || str_in (lit "what can you do") message_lower
      then help_response knowledge_base
      else if str_in (lit "thank") message_lower
      then welcome_response player_name
      else response
    else response in
  strip response.

(* ================================================================== *)
(** ** Globals, effects and the surrounding libraries *)

(** A decoded OSC argument, as [python-osc] hands it to a handler. *)
Inductive osc_arg : Type :=
| OscStr (s : str)
| OscInt (n : Z)
| OscFloat (bits : Z)
| OscBool (b : bool)
| OscBlob (bytes : list ascii)
| OscNil.

(** Exception classes the script distinguishes in its [except] clauses;
    every one of them derives from [Exception]. *)
Inductive exn_class : Type :=
| FileNotFoundError
| JSONDecodeError
| RequestException
| KeyError
| OtherException.

Record exn : Type := mkExn { exn_cls : exn_class; exn_text : str }.

(** The keys of [CONFIG] the modelled functions read.  [None] is a key that
    is absent (or, for the webhook URL, [null]). *)
Record Config : Type := mkConfig {
  discord_webhook_url : option str;
  owner_discord_ids : option (list str);
  knowledge_base_file : option str;
  vrchat_client_ip : option str;
  vrchat_client_port : option N
}.

(** [udp_client.SimpleUDPClient(ip, port)] *)
Record SimpleUDPClient : Type := mkClient { peer_ip : str; peer_port : N }.

(** The argument of [requests.post(webhook_url, json=payload, timeout=10)];
    [content] is [payload["content"]]. *)
Record HttpPost : Type := mkPost {
  post_url : str;
  content : str;
  timeout : nat
}.

(** One constructor per [print] statement, carrying the interpolated values. *)
Inductive log_line : Type :=
| KbLoaded (kb_file : str)
| KbFileNotFound (kb_file : str)
| KbDecodeError (kb_file : str)
| KbUnexpected (e : exn)
| OscClientNotInitialized
| SentOsc (ip : str) (port : N) (address : str) (args : list osc_arg)
| ErrorSendingOsc (e : exn)
| DiscordSent
| DiscordError (e : exn)
| DiscordUnexpected (e : exn)
| ChatIgnored (playerName playerId : str)
| ChatReceived (playerName playerId message : str)
| ChatResponse (playerName ai_response : str)
| ChatTruncated (max_len : nat).

(** Module globals and the trace of observable effects.  [osc_out] lists the
    calls [vrchat_osc_client.send_message(address, args)], [http_out] the
    calls [requests.post(...)], both oldest first. *)
Record World : Type := mkWorld {
  CONFIG : Config;
  knowledge_base : KnowledgeBase;
  vrchat_osc_client : option SimpleUDPClient;
  stdout : list log_line;
  osc_out : list (str * list osc_arg);
  http_out : list HttpPost
}.

(** What the libraries answer: decoding the knowledge file
    ([open] followed by [json.load]), the UDP send ([None]: no exception),
    and the HTTP POST (a status code, or an exception). *)
Record Env : Type := mkEnv {
  json_load : str -> KnowledgeBase + exn;
  send_message : SimpleUDPClient -> str -> list osc_arg -> option exn;
  requests_post : HttpPost -> nat + exn
}.

(** *** State and exceptions *)

Inductive result (A : Type) : Type :=
| Return (a : A)
| Raise (e : exn).
Arguments Return {A} a.
Arguments Raise {A} e.

Definition M (A : Type) : Type := World -> result A * World.

Definition ret {A : Type} (a : A) : M A := fun w => (Return a, w).

Definition bind {A B : Type} (m : M A) (k : A -> M B) : M B :=
  fun w =>
    match m w with
    | (Return a, w') => k a w'
    | (Raise e, w') => (Raise e, w')
    end.

Definition raise {A : Type} (e : exn) : M A := fun w => (Raise e, w).

(** [try: body  except Exception as e: handler(e)] *)
Definition try_except {A : Type} (body : M A) (handler : exn -> M A) : M A :=
  fun w =>
    match body w with
    | (Return a, w') => (Return a, w')
    | (Raise e, w') => handler e w'
    end.

Definition read {A : Type} (field : World -> A) : M A :=
  fun w => (Return (field w), w).

Declare Scope py_scope.
Delimit Scope py_scope with py.
Notation "x <- m ;; k" := (bind m (fun x => k))
  (at level 61, m at next level, right associativity) : py_scope.
Notation "m ;; k" := (bind m (fun _ => k))
  (at level 61, right associativity) : py_scope.
Open Scope py_scope.

Definition print (l : log_line) : M unit :=
  fun w => (Return tt,
            mkWorld (CONFIG w) (knowledge_base w) (vrchat_osc_client w)
                    (stdout w ++ [l]) (osc_out w) (http_out w)).

(** [knowledge_base = kb] (the [global] assignment) *)
Definition assign_knowledge_base (kb : KnowledgeBase) : M unit :=
  fun w => (Return tt,
            mkWorld (CONFIG w) kb (vrchat_osc_client w)
                    (stdout w) (osc_out w) (http_out w)).

(** [with open(kb_file, 'r') as f: json.load(f)] *)
Definition open_and_load (env : Env) (kb_file : str) : M KnowledgeBase :=
  match json_load env kb_file with
  | inl kb => ret kb
  | inr e => raise e
  end.

(** [client.send_message(address, args)] *)
Definition client_send_message (env : Env) (client : SimpleUDPClient)
    (address : str) (args : list osc_arg) : M unit :=
  fun w =>
    let w' := mkWorld (CONFIG w) (knowledge_base w) (vrchat_osc_client w)
                      (stdout w) (osc_out w ++ [(address, args)]) (http_out w) in
    match send_message env client address args with
    | None => (Return tt, w')
    | Some e => (Raise e, w')
    end.

(** [requests.post(webhook_url, json=payload, timeout=10)]: the status code
    of the response. *)
Definition post (env : Env) (req : HttpPost) : M nat :=
  fun w =>
    let w' := mkWorld (CONFIG w) (knowledge_base w) (vrchat_osc_client w)
                      (stdout w) (osc_out w) (http_out w ++ [req]) in
    match requests_post env req with
    | inl status_code => (Return status_code, w')
    | inr e => (Raise e, w')
    end.

(** [response.raise_for_status()]: [HTTPError], a [RequestException], for a
    4xx or 5xx status. *)
Definition raise_for_status (status_code : nat) : M unit :=
  if (400 <=? status_code) && (status_code <? 600)
  then raise (mkExn RequestException (lit "HTTPError"))
  else ret tt.

(** [CONFIG[key]] *)
Definition index {A : Type} (field : Config -> option A) (key : string) : M A :=
  fun w =>
    match field (CONFIG w) with
    | Some v => (Return v, w)
    | None => (Raise (mkExn KeyError (lit key)), w)
    end.

(* ================================================================== *)
(** ** Knowledge base loading: [load_knowledge_base] *)

Definition load_knowledge_base (env : Env) : M unit :=
  cfg <- read CONFIG ;;
  let kb_file := get (knowledge_base_file cfg) (lit "knowledge_base.json") in
  try_except
    (kb <- open_and_load env kb_file ;;
     assign_knowledge_base kb ;;
     print (KbLoaded kb_file))
    (fun e =>
       match exn_cls e with
       | FileNotFoundError =>
           print (KbFileNotFound kb_file) ;; assign_knowledge_base []
       | JSONDecodeError =>
           print (KbDecodeError kb_file) ;; assign_knowledge_base []
       | _ =>
           print (KbUnexpected e) ;; assign_knowledge_base []
       end).

(* ================================================================== *)
(** ** OSC communication: [send_osc_to_vrchat] *)

Definition chatbox_address : str := lit "/avatar/parameters/Chatbox".

Definition send_osc_to_vrchat (env : Env) (address : str) (args : list osc_arg)
  : M unit :=
  client <- read vrchat_osc_client ;;
  match client with
  | None => print OscClientNotInitialized
  | Some c =>
      try_except
        (client_send_message env c address args ;;
         if negb (str_eqb address chatbox_address) then
           ip <- index vrchat_client_ip "vrchat_client_ip" ;;
           port <- index vrchat_client_port "vrchat_client_port" ;;
           print (SentOsc ip port address args)
         else ret tt)
        (fun e => print (ErrorSendingOsc e))
  end.

(* ================================================================== *)
(** ** Notification manager: [send_discord_notification] *)

Definition send_discord_notification (env : Env) (message : str) : M unit :=
  cfg <- read CONFIG ;;
  let webhook_url := discord_webhook_url cfg in
  if negb (truthy (get webhook_url [])) then ret tt
  else
    let webhook_url := get webhook_url [] in
    let owner_ids := get (owner_discord_ids cfg) [] in
    let owner_pings :=
      match owner_ids with
      | _ :: _ => join (lit " ") owner_ids
      | [] => []
      end in
    let payload := strip (owner_pings ++ nl ++ message) in
    try_except
      (status_code <- post env (mkPost webhook_url payload 10) ;;
       raise_for_status status_code ;;
       print DiscordSent)
      (fun e =>
         match exn_cls e with
         | RequestException => print (DiscordError e)
         | _ => print (DiscordUnexpected e)
         end).

(* ================================================================== *)
(** ** OSC message handler: [handle_chat_message] *)

(** [isinstance(message, str) and message.strip()], as a truth value. *)
Definition chat_text (message : osc_arg) : option str :=
  match message with
  | OscStr s => if truthy (strip s) then Some (strip s) else None
  | _ => None
  end.

(** The truncation step, as a function of [ai_response]. *)
Definition ai_response_truncated (ai_response : str) : str :=
  let max_len := 144 in
  if max_len <? List.length ai_response
  then firstn (max_len - 3) ai_response ++ lit "..."
  else ai_response.

Definition handle_chat_message (env : Env) (playerName playerId : str)
    (message : osc_arg) : M unit :=
  match chat_text message with
  | None => print (ChatIgnored playerName playerId)
  | Some message =>
      print (ChatReceived playerName playerId message) ;;
      kb <- read knowledge_base ;;
      let ai_response := get_ai_response kb playerName message in
      print (ChatResponse playerName ai_response) ;;
      let osc_chat_address := chatbox_address in
      let max_len := 144 in
      (if max_len <? List.length ai_response
       then print (ChatTruncated max_len)
       else ret tt) ;;
      send_osc_to_vrchat env osc_chat_address
        [OscBool true; OscStr (ai_response_truncated ai_response)]
  end.

(* ================================================================== *)
(** ** The matching rule in the words of the specification *)

Module Spec.

(** A trigger of a topic: the lower-cased key or a lower-cased alias. *)
Definition is_trigger (key : str) (data : TopicRecord) (t : str) : Prop :=
  t = lower key \/ exists a, In a (get (aliases data) []) /\ t = lower a.

Definition starts_with (text t : str) : Prop := exists r, text = t ++ r.
Definition ends_with (text t : str) : Prop := exists l, text = l ++ t.
Definition occurs_in (t text : str) : Prop := exists l r, text = l ++ t ++ r.

(** The normalized text equals a trigger, starts with one, ends with one, or
    contains one when both are padded with one space on each side. *)
Definition matched (text key : str) (data : TopicRecord) : Prop :=
  exists t, is_trigger key data t /\
    (text = t \/ starts_with text t \/ ends_with text t \/
     occurs_in (lit " " ++ t ++ lit " ") (lit " " ++ text ++ lit " ")).

(** First match in store order. *)
Definition first_matched (store : KnowledgeBase) (text : str)
    (key : str) (data : TopicRecord) : Prop :=
  exists before after,
    store = before ++ (key, data) :: after /\
    matched text key data /\
    Forall (fun kd => ~ matched text (fst kd) (snd kd)) before.

End Spec.

(* ================================================================== *)
(** ** Auxiliary definitions used by the statements *)

(** The lines [topic_response] appends after the description. *)
Definition optional_lines (data : TopicRecord) : str :=
  (if truthy (get (details data) [])
   then nl ++ lit "More Info: " ++ get (details data) [] else []) ++
  (if truthy (get (website data) [])
   then nl ++ lit "Website: " ++ get (website data) [] else []) ++
  (if truthy (get (contact data) [])
   then nl ++ lit "Contact: " ++ get (contact data) [] else []).

(** [CONFIG = loaded_config], the assignment that ends [load_config]. *)
Definition assign_CONFIG (cfg : Config) : M unit :=
  fun w => (Return tt,
            mkWorld cfg (knowledge_base w) (vrchat_osc_client w)
                    (stdout w) (osc_out w) (http_out w)).

(** The topics of the configured knowledge file, as the libraries decode it;
    none when the file is missing or malformed. *)
Definition file_topics (env : Env) (cfg : Config) : KnowledgeBase :=
  match json_load env (get (knowledge_base_file cfg) (lit "knowledge_base.json")) with
  | inl kb => kb
  | inr _ => []
  end.

(* ================================================================== *)
(** ** Concrete stores, libraries and states *)

(** The store of the specification's coffee-shop scenario. *)
Definition coffee_store : KnowledgeBase :=
  [ (lit "CoffeeShop",
     mkTopic (Some [lit "coffee"]) (Some (lit "Best beans in town"))
             None None None) ].

(** Two stores on which a key sent as the message does not bring back its
    own heading. *)
Definition shadowed_store : KnowledgeBase :=
  [ (lit "a", mkTopic None (Some (lit "x")) None None None);
    (lit "a b", mkTopic None (Some (lit "y")) None None None) ].

Definition padded_key_store : KnowledgeBase :=
  [ (lit " shop ", mkTopic None (Some (lit "x")) None None None) ].

(** A store whose only topic has the empty string as key. *)
Definition empty_key_store : KnowledgeBase :=
  [ (lit "", mkTopic None None None None None) ].

(** [DEFAULT_CONFIG], on the keys of [Config]. *)
Definition DEFAULT_CONFIG : Config :=
  mkConfig (Some (lit "")) (Some []) (Some (lit "knowledge_base.json"))
           (Some (lit "127.0.0.1")) (Some 9000%N).

(** Libraries that never fail: an empty knowledge file, a UDP send that goes
    through, a webhook that answers 204. *)
Definition quiet_env : Env :=
  mkEnv (fun _ => inl []) (fun _ _ _ => None) (fun _ => inl 204).

(** The state after a start-up in which [initialize_osc_client] failed. *)
Definition world_without_client : World :=
  mkWorld DEFAULT_CONFIG [] None [] [] [].

(** A state with a client and one topic whose description has 200
    characters. *)
Definition world_long_topic : World :=
  mkWorld DEFAULT_CONFIG
          [(lit "Shop", mkTopic None (Some (repeat "x"%char 200)) None None None)]
          (Some (mkClient (lit "127.0.0.1") 9000%N)) [] [] [].

(* ================================================================== *)
(** ** Start-up and the interaction handler *)

(** [vrchat_osc_client = client] (the [global] assignment) *)
Definition assign_vrchat_osc_client (client : option SimpleUDPClient) : M unit :=
  fun w => (Return tt,
            mkWorld (CONFIG w) (knowledge_base w) client
                    (stdout w) (osc_out w) (http_out w)).

(** [loaded_config.update(user_config)]: a key of [user_config] replaces
    the value under the same key. *)
Definition update (loaded_config user_config : Config) : Config :=
  let pick {A : Type} (field : Config -> option A) :=
    match field user_config with
    | Some v => Some v
    | None => field loaded_config
    end in
  mkConfig (pick discord_webhook_url) (pick owner_discord_ids)
           (pick knowledge_base_file) (pick vrchat_client_ip)
           (pick vrchat_client_port).

(** One constructor per [print] statement of [load_config],
    [initialize_osc_client] and [handle_interaction]; [CoreLine] is a line
    printed by one of the functions above. *)
Inductive host_line : Type :=
| CoreLine (l : log_line)
| ConfigNotFound (config_file : str)
| ConfigPleaseEdit
| ConfigNotCreated (config_file : str) (e : exn)
| ConfigUsingDefaults
| ConfigLoaded (config_file : str)
| ConfigDecodeError (config_file : str)
| ConfigUnexpected (e : exn)
| WebhookNotSet
| OwnersNotSet
| OscClientInitialized (ip : str) (port : N)
| OscClientError (e : exn)
| InteractionReceived (itemName itemId playerName playerId : str).

(** Outcome of [with open(config_file, 'w') as f: json.dump(DEFAULT_CONFIG, f)]:
    done, an [IOError], or an exception of another class. *)
Inductive dump_outcome : Type :=
| Dumped
| DumpIOError (e : exn)
| DumpOtherError (e : exn).

(** What the operating system and the libraries answer at start-up and to
    the interaction handler: [os.path.exists], writing the default
    configuration, decoding the configuration file, the constructor
    [SimpleUDPClient(ip, port)] ([None]: no exception), and
    [datetime.datetime.now().strftime("%Y-%m-%d %H:%M:%S")]. *)
Record Sys : Type := mkSys {
  path_exists : str -> bool;
  dump_default : str -> dump_outcome;
  load_user_config : str -> Config + exn;
  construct_client : str -> N -> option exn;
  strftime_now : str
}.

(** The state of the whole script: the globals and effects of the functions
    above, everything printed so far in order ([console]), and the files on
    which [json.dump(DEFAULT_CONFIG, f)] was attempted. *)
Record Host : Type := mkHost {
  world : World;
  console : list host_line;
  dump_attempts : list str
}.

Definition H (A : Type) : Type := Host -> result A * Host.

Definition hret {A : Type} (a : A) : H A := fun h => (Return a, h).

Definition hbind {A B : Type} (m : H A) (k : A -> H B) : H B :=
  fun h =>
    match m h with
    | (Return a, h') => k a h'
    | (Raise e, h') => (Raise e, h')
    end.

(** [try: body  except Exception as e: handler(e)] *)
Definition htry {A : Type} (body : H A) (handler : exn -> H A) : H A :=
  fun h =>
    match body h with
    | (Return a, h') => (Return a, h')
    | (Raise e, h') => handler e h'
    end.

Notation "x <~ m ;; k" := (hbind m (fun x => k))
  (at level 61, m at next level, right associativity) : py_scope.
Notation "m ;;; k" := (hbind m (fun _ => k))
  (at level 61, right associativity) : py_scope.

Definition say (l : host_line) : H unit :=
  fun h => (Return tt, mkHost (world h) (console h ++ [l]) (dump_attempts h)).

(** A function of the parts above run inside the script: its effects go to
    [world], and the lines it printed are appended to [console] as well. *)
Definition core {A : Type} (m : M A) : H A :=
  fun h =>
    let '(r, w') := m (world h) in
    (r, mkHost w'
               (console h ++
                map CoreLine (skipn (List.length (stdout (world h))) (stdout w')))
               (dump_attempts h)).

(** The [try] of the branch of [load_config] taken when the file does not
    exist: write the defaults; [except IOError] reports and goes on with
    the defaults; any other exception escapes. *)
Definition create_default_config (sys : Sys) (config_file : str) : H Config :=
  fun h =>
    let h' := mkHost (world h) (console h) (dump_attempts h ++ [config_file]) in
    match dump_default sys config_file with
    | Dumped => (Return DEFAULT_CONFIG, h')
    | DumpIOError e =>
        (say (ConfigNotCreated config_file e) ;;;
         say ConfigUsingDefaults ;;;
         hret DEFAULT_CONFIG) h'
    | DumpOtherError e => (Raise e, h')
    end.

(** [with open(config_file, 'r') as f: json.load(f)] *)
Definition open_and_load_config (sys : Sys) (config_file : str) : H Config :=
  fun h =>
    match load_user_config sys config_file with
    | inl user_config => (Return user_config, h)
    | inr e => (Raise e, h)
    end.

Definition load_config (sys : Sys) : H unit :=
  let config_file := lit "config.json" in
  loaded_config <~
    (if negb (path_exists sys config_file) then
       say (ConfigNotFound config_file) ;;;
       say ConfigPleaseEdit ;;;
       create_default_config sys config_file
     else
       htry
         (user_config <~ open_and_load_config sys config_file ;;
          let loaded_config := update DEFAULT_CONFIG user_config in
          say (ConfigLoaded config_file) ;;;
          hret loaded_config)
         (fun e =>
            match exn_cls e with
            | JSONDecodeError =>
                say (ConfigDecodeError config_file) ;;;
                say ConfigUsingDefaults ;;;
                hret DEFAULT_CONFIG
            | _ =>
                say (ConfigUnexpected e) ;;;
                say ConfigUsingDefaults ;;;
                hret DEFAULT_CONFIG
            end)) ;;
  core (assign_CONFIG loaded_config) ;;;
  (if negb (truthy (get (discord_webhook_url loaded_config) []))
   then say WebhookNotSet else hret tt) ;;;
  (match get (owner_discord_ids loaded_config) [] with
   | [] => say OwnersNotSet
   | _ :: _ => hret tt
   end).

(** [udp_client.SimpleUDPClient(ip, port)] *)
Definition new_client (sys : Sys) (ip : str) (port : N) : H SimpleUDPClient :=
  fun h =>
    match construct_client sys ip port with
    | None => (Return (mkClient ip port), h)
    | Some e => (Raise e, h)
    end.

Definition initialize_osc_client (sys : Sys) : H unit :=
  htry
    (cfg <~ core (read CONFIG) ;;
     let ip := get (vrchat_client_ip cfg) (lit "127.0.0.1") in
     let port := get (vrchat_client_port cfg) 9000%N in
     client <~ new_client sys ip port ;;
     core (assign_vrchat_osc_client (Some client)) ;;;
     say (OscClientInitialized ip port))
    (fun e =>
       say (OscClientError e) ;;;
       core (assign_vrchat_osc_client None)).

(** The text [handle_interaction] passes to the notifier. *)
Definition notification_message (timestamp itemId itemName playerName playerId : str)
  : str :=
  lit ":bell: **Item Interaction Alert** (" ++ timestamp ++ lit " UTC)" ++ nl ++
  lit "> **Player:** `" ++ playerName ++ lit "` (ID: `" ++ playerId ++ lit "`)" ++ nl ++
  lit "> **Item:** `" ++ itemName ++ lit "` (ID: `" ++ itemId ++ lit "`)".

Definition handle_interaction (sys : Sys) (env : Env)
    (itemId itemName playerName playerId : str) : H unit :=
  say (InteractionReceived itemName itemId playerName playerId) ;;;
  let timestamp := strftime_now sys in
  core (send_discord_notification env
          (notification_message timestamp itemId itemName playerName playerId)).

(** The three initialisation calls that open the main block, in their
    order: [load_config()], [initialize_osc_client()],
    [load_knowledge_base()]. *)
Definition main_initialisation (sys : Sys) (env : Env) : H unit :=
  load_config sys ;;;
  initialize_osc_client sys ;;;
  core (load_knowledge_base env).

(** What [handle_chat_message] hands to the OSC client in state [w]: one
    message for a valid chat text when there is a client, nothing
    otherwise. *)
Definition chat_output (w : World) (playerName : str) (message : osc_arg)
  : list (str * list osc_arg) :=
  match chat_text message, vrchat_osc_client w with
  | Some text, Some _ =>
      [(chatbox_address,
        [OscBool true;
         OscStr (ai_response_truncated
                   (get_ai_response (knowledge_base w) playerName text))])]
  | _, _ => []
  end.

(** The request [send_discord_notification] issues for [message] under
    [cfg] when a webhook URL is set. *)
Definition webhook_posts (cfg : Config) (message : str) : list HttpPost :=
  match discord_webhook_url cfg with
  | Some (c :: url) =>
      [mkPost (c :: url)
              (strip (join (lit " ") (get (owner_discord_ids cfg) [])
                      ++ nl ++ message))
              10]
  | _ => []
  end.

(** Every key of [Config] is present. *)
Definition complete (cfg : Config) : bool :=
  match discord_webhook_url cfg, owner_discord_ids cfg, knowledge_base_file cfg,
        vrchat_client_ip cfg, vrchat_client_port cfg with
  | Some _, Some _, Some _, Some _, Some _ => true
  | _, _, _, _, _ => false
  end.

(** The configuration [load_config] arrives at: the defaults overridden by
    the keys of a configuration file that exists and decodes, the bare
    defaults otherwise. *)
Definition resolved_config (sys : Sys) : Config :=
  if path_exists sys (lit "config.json") then
    match load_user_config sys (lit "config.json") with
    | inl user_config => update DEFAULT_CONFIG user_config
    | inr _ => DEFAULT_CONFIG
    end
  else DEFAULT_CONFIG.

(** The client [initialize_osc_client] arrives at under [cfg]. *)
Definition resolved_client (sys : Sys) (cfg : Config) : option SimpleUDPClient :=
  match construct_client sys (get (vrchat_client_ip cfg) (lit "127.0.0.1"))
                         (get (vrchat_client_port cfg) 9000%N) with
  | None => Some (mkClient (get (vrchat_client_ip cfg) (lit "127.0.0.1"))
                           (get (vrchat_client_port cfg) 9000%N))
  | Some _ => None
  end.

(** A start with nothing printed, nothing sent and [CONFIG = {}]. *)
Definition fresh_host : Host :=
  mkHost (mkWorld (mkConfig None None None None None) [] None [] [] []) [] [].

(** An operating system on which [config.json] exists and sets the webhook
    and one owner, the client can be built, and the clock reads a fixed
    time. *)
Definition sample_sys : Sys :=
  mkSys (fun _ => true) (fun _ => Dumped)
        (fun _ => inl (mkConfig (Some (lit "https://discord.example/hook"))
                                (Some [lit "<@1>"]) None None None))
        (fun _ _ => None)
        (lit "2024-01-01 12:00:00").

(* ================================================================== *)
(** ** The dictionaries as [json.load] leaves them *)

(** A decoded JSON value.  A float is carried by its 64-bit pattern; the
    members of an object are the items of the dictionary in order. *)
Unset Elimination Schemes.
Inductive Json : Type :=
| JNull
| JBool (b : bool)
| JInt (n : Z)
| JFloat (bits : Z)
| JString (s : str)
| JArray (items : list Json)
| JObject (members : list (str * Json)).
Set Elimination Schemes.

(** [type(v).__name__] *)
Definition type_name (v : Json) : str :=
  match v with
  | JNull => lit "NoneType"
  | JBool _ => lit "bool"
  | JInt _ => lit "int"
  | JFloat _ => lit "float"
  | JString _ => lit "str"
  | JArray _ => lit "list"
  | JObject _ => lit "dict"
  end.

(** [bool(v)]: [None], [False], zero, and the empty string, list and
    dictionary are false. *)
Definition py_bool (v : Json) : bool :=
  match v with
  | JNull => false
  | JBool b => b
  | JInt n => negb (n =? 0)%Z
  | JFloat bits => negb (Z.land bits (Z.ones 63) =? 0)%Z
  | JString s => truthy s
  | JArray items => match items with [] => false | _ :: _ => true end
  | JObject members => match members with [] => false | _ :: _ => true end
  end.

(** [{v}] inside an f-string: a string as it is, any other value through
    [str_of], which stands for Python's [str()] on values that are not
    strings. *)
Definition py_format (str_of : Json -> str) (v : Json) : str :=
  match v with
  | JString s => s
  | _ => str_of v
  end.

Definition attribute_error {A : Type} (v : Json) (attribute : string) : result A :=
  Raise (mkExn OtherException
           (lit "'" ++ type_name v ++ lit "' object has no attribute '" ++
            lit attribute ++ lit "'")).

Definition not_iterable {A : Type} (v : Json) : result A :=
  Raise (mkExn OtherException
           (lit "'" ++ type_name v ++ lit "' object is not iterable")).

Definition rbind {A B : Type} (r : result A) (k : A -> result B) : result B :=
  match r with
  | Return a => k a
  | Raise e => Raise e
  end.

Notation "x <-? r ;; k" := (rbind r (fun x => k))
  (at level 61, r at next level, right associativity) : py_scope.

(** The value under [key] in a dictionary, if any. *)
Fixpoint dict_get (members : list (str * Json)) (key : str) : option Json :=
  match members with
  | [] => None
  | (k, v) :: rest => if str_eqb k key then Some v else dict_get rest key
  end.

(** [data.get(key, default)] *)
Definition py_get (data : Json) (key : string) (default : Json) : result Json :=
  match data with
  | JObject members => Return (get (dict_get members (lit key)) default)
  | _ => attribute_error data "get"
  end.

(** The values [for x in v] runs through: the elements of a list, the
    characters of a string, the keys of a dictionary. *)
Definition py_iter (v : Json) : result (list Json) :=
  match v with
  | JArray items => Return items
  | JString s => Return (map (fun c => JString [c]) s)
  | JObject members => Return (map (fun kv => JString (fst kv)) members)
  | _ => not_iterable v
  end.

(** [[alias.lower() for alias in aliases]], element by element. *)
Fixpoint lower_each (aliases : list Json) : result (list str) :=
  match aliases with
  | [] => Return []
  | alias :: rest =>
      match alias with
      | JString s =>
          lowered <-? lower_each rest ;;
          Return (lower s :: lowered)
      | _ => attribute_error alias "lower"
      end
  end.

(** [[key.lower()] + [alias.lower() for alias in data.get("aliases", [])]]
    on a value [data] of any type. *)
Definition raw_triggers (key : str) (data : Json) : result (list str) :=
  aliases <-? py_get data "aliases" (JArray []) ;;
  items <-? py_iter aliases ;;
  lowered <-? lower_each items ;;
  Return ([lower key] ++ lowered).

(** The response built in the body of the [if], on a value [data] of any
    type. *)
Definition raw_topic_response (str_of : Json -> str) (key : str) (data : Json)
  : result str :=
  description <-? py_get data "description"
                    (JString (lit "No description available.")) ;;
  details <-? py_get data "details" (JString []) ;;
  website <-? py_get data "website" (JString []) ;;
  contact <-? py_get data "contact" (JString []) ;;
  let response := lit "Regarding " ++ key ++ lit ":" ++ nl in
  let response := response ++ py_format str_of description in
  let response :=
    if py_bool details
    then response ++ nl ++ lit "More Info: " ++ py_format str_of details
    else response in
  let response :=
    if py_bool website
    then response ++ nl ++ lit "Website: " ++ py_format str_of website
    else response in
  let response :=
    if py_bool contact
    then response ++ nl ++ lit "Contact: " ++ py_format str_of contact
    else response in
  Return response.

(** The loop over [knowledge_base.items()]: the item at which it breaks, or
    the exception that ends it. *)
Fixpoint raw_matched_topic (items : list (str * Json)) (message_lower : str)
  : result (option (str * Json)) :=
  match items with
  | [] => Return None
  | (key, data) :: rest =>
      triggers <-? raw_triggers key data ;;
      if existsb (trigger_hit message_lower) triggers
      then Return (Some (key, data))
      else raw_matched_topic rest message_lower
  end.

(** [get_ai_response] on whatever [json.load] stored in
    [knowledge_base]. *)
Definition raw_get_ai_response (str_of : Json -> str) (knowledge_base : Json)
    (player_name message : str) : result str :=
  let message_lower := strip (lower message) in
  let response := sorry_response player_name in
  match knowledge_base with
  | JObject items =>
      stop <-? raw_matched_topic items message_lower ;;
      match stop with
      | Some (key, data) =>
          response <-? raw_topic_response str_of key data ;;
          Return (strip response)
      | None =>
          let response :=
            if str_in (lit "hello") message_lower
               || str_in (lit "hi") message_lower
            then hello_response player_name
            else if str_in (lit "help") message_lower
                    || str_in (lit "what can you do") message_lower
            then
              let business_names := join (lit ", ") (map fst items) in
              let business_names :=
                if negb (truthy business_names)
                then lit "any specific topics yet"
                else business_names in
              lit "I can tell you about: " ++ business_names ++
              lit ". I also notify owners when certain items are interacted with."
            else if str_in (lit "thank") message_lower
            then welcome_response player_name
            else response in
          Return (strip response)
      end
  | _ => attribute_error knowledge_base "items"
  end.




(** A typed topic record and a typed store as JSON values. *)
Definition member (key : string) (field : option Json) : list (str * Json) :=
  match field with
  | Some v => [(lit key, v)]
  | None => []
  end.

Definition topic_to_json (data : TopicRecord) : Json :=
  JObject
    (member "aliases"
       (option_map (fun l => JArray (map JString l)) (aliases data)) ++
     member "description" (option_map JString (description data)) ++
     member "details" (option_map JString (details data)) ++
     member "website" (option_map JString (website data)) ++
     member "contact" (option_map JString (contact data))).

Definition store_to_json (knowledge_base : KnowledgeBase) : Json :=
  JObject (map (fun kd => (fst kd, topic_to_json (snd kd))) knowledge_base).

(** [sep.join(v)]: the items must be strings. *)
Fixpoint join_items (i : nat) (items : list Json) : result (list str) :=
  match items with
  | [] => Return []
  | item :: rest =>
      match item with
      | JString s =>
          parts <-? join_items (S i) rest ;;
          Return (s :: parts)
      | _ =>
          Raise (mkExn OtherException
                   (lit "sequence item " ++
                    lit (NilEmpty.string_of_uint (Nat.to_uint i)) ++
                    lit ": expected str instance, " ++ type_name item ++
                    lit " found"))
      end
  end.

Definition py_join (sep : str) (v : Json) : result str :=
  match py_iter v with
  | Raise _ =>
      Raise (mkExn OtherException (lit "can only join an iterable"))
  | Return items =>
      parts <-? join_items 0 items ;;
      Return (join sep parts)
  end.

(** The [try] block of [send_discord_notification] with its [except]
    clauses, for the request [req]. *)
Definition guarded_post (env : Env) (req : HttpPost) : M unit :=
  try_except
    (status_code <- post env req ;;
     raise_for_status status_code ;;
     print DiscordSent)
    (fun e =>
       match exn_cls e with
       | RequestException => print (DiscordError e)
       | _ => print (DiscordUnexpected e)
       end).

(** A result of a pure computation inside the state monad. *)
Definition lift_result {A : Type} (r : result A) : M A := fun w => (r, w).

(** [send_discord_notification] on whatever [json.load] stored in
    [CONFIG]; [config] is that dictionary.  A URL that is not a string
    reaches [requests.post] through [str()]. *)
Definition raw_send_discord_notification (env : Env) (str_of : Json -> str)
    (config : list (str * Json)) (message : str) : M unit :=
  let webhook_url := get (dict_get config (lit "discord_webhook_url")) JNull in
  if negb (py_bool webhook_url) then ret tt
  else
    let owner_ids := get (dict_get config (lit "owner_discord_ids")) (JArray []) in
    owner_pings <-
      (if py_bool owner_ids then lift_result (py_join (lit " ") owner_ids)
       else ret []) ;;
    let payload := strip (owner_pings ++ nl ++ message) in
    try_except
      (status_code <- post env (mkPost (py_format str_of webhook_url) payload 10) ;;
       raise_for_status status_code ;;
       print DiscordSent)
      (fun e =>
         match exn_cls e with
         | RequestException => print (DiscordError e)
         | _ => print (DiscordUnexpected e)
         end).

(** [handle_interaction] over that dictionary. *)
Definition raw_handle_interaction (sys : Sys) (env : Env) (str_of : Json -> str)
    (config : list (str * Json))
    (itemId itemName playerName playerId : str) : H unit :=
  say (InteractionReceived itemName itemId playerName playerId) ;;;
  let timestamp := strftime_now sys in
  core (raw_send_discord_notification env str_of config
          (notification_message timestamp itemId itemName playerName playerId)).

(** The typed configuration as the dictionary it stands for. *)
Definition config_to_json (cfg : Config) : list (str * Json) :=
  member "discord_webhook_url" (option_map JString (discord_webhook_url cfg)) ++
  member "owner_discord_ids"
    (option_map (fun l => JArray (map JString l)) (owner_discord_ids cfg)) ++
  member "knowledge_base_file" (option_map JString (knowledge_base_file cfg)) ++
  member "vrchat_client_ip" (option_map JString (vrchat_client_ip cfg)) ++
  member "vrchat_client_port"
    (option_map (fun p => JInt (Z.of_N p)) (vrchat_client_port cfg)).

(** Stand-in for [str()] in closed examples that never format a value
    other than a string. *)
Definition no_str_of (v : Json) : str := type_name v.




(** A configuration whose owner ids are JSON numbers. *)
Definition numeric_owner_config : list (str * Json) :=
  [ (lit "discord_webhook_url", JString (lit "https://discord.example/hook"));
    (lit "owner_discord_ids", JArray [JInt 12345]) ].

(** Two knowledge files, and libraries that serve one or the other. *)
Definition first_file : KnowledgeBase :=
  [ (lit "Coffee Shop", mkTopic None (Some (lit "Best beans in town")) None None None) ].

Definition second_file : KnowledgeBase :=
  [ (lit "Coffee", mkTopic None (Some (lit "A hot drink")) None None None) ].

Definition first_env : Env :=
  mkEnv (fun _ => inl first_file) (fun _ _ _ => None) (fun _ => inl 204).

Definition second_env : Env :=
  mkEnv (fun _ => inl second_file) (fun _ _ _ => None) (fun _ => inl 204).

(* ================================================================== *)
(** * Properties *)

(** ** Facts about the string operations *)

Section StringFacts.

Lemma str_eqb_refl (s : str) : str_eqb s s = true.
Proof.
  induction s as [|c s IH]; simpl; [reflexivity|].
  now rewrite Ascii.eqb_refl.
Qed.

Lemma str_eqb_eq (s t : str) : str_eqb s t = true <-> s = t.
Proof.
  split.
  - revert t; induction s as [|c s IH]; intros [|d t] H; simpl in H;
      try discriminate; [reflexivity|].
    apply andb_true_iff in H as [Hc Hs].
    apply Ascii.eqb_eq in Hc. f_equal; auto.
  - intros ->. apply str_eqb_refl.
Qed.

Lemma startswith_iff (s p : str) :
  startswith s p = true <-> exists r, s = p ++ r.
Proof.
  revert s; induction p as [|c p IH]; intros s; simpl.
  - split; [intros _; now exists s | reflexivity].
  - destruct s as [|d s].
    + split; [discriminate | intros [r Hr]; discriminate].
    + rewrite andb_true_iff, Ascii.eqb_eq, IH. split.
      * intros [-> [r ->]]. now exists r.
      * intros [r Hr]. injection Hr as -> ->. split; [reflexivity|now exists r].
Qed.

Lemma startswith_nil (s : str) : startswith s [] = true.
Proof. destruct s; reflexivity. Qed.

Lemma endswith_iff (s p : str) :
  endswith s p = true <-> exists l, s = l ++ p.
Proof.
  unfold endswith. rewrite startswith_iff. split.
  - intros [r Hr]. exists (rev r).
    rewrite <- (rev_involutive s), Hr, rev_app_distr, rev_involutive.
    reflexivity.
  - intros [l ->]. exists (rev l). apply rev_app_distr.
Qed.

Lemma str_in_iff (sub s : str) :
  str_in sub s = true <-> exists l r, s = l ++ sub ++ r.
Proof.
  induction s as [|c s IH]; simpl.
  - rewrite orb_false_r, startswith_iff. split.
    + intros [r Hr]. now exists [], r.
    + intros [l [r Hr]]. destruct l; [now exists r|discriminate].
  - rewrite orb_true_iff, IH, startswith_iff. split.
    + intros [[r Hr] | [l [r Hr]]].
      * now exists [], r.
      * exists (c :: l), r. simpl. now rewrite Hr.
    + intros [[|d l] [r Hr]].
      * left. now exists r.
      * right. injection Hr as _ Hr. now exists l, r.
Qed.

Lemma str_in_prefix (p r : str) : str_in p (p ++ r) = true.
Proof. apply str_in_iff. now exists [], r. Qed.

Lemma str_in_length (sub s : str) :
  str_in sub s = true -> List.length sub <= List.length s.
Proof.
  intros H. apply str_in_iff in H as [l [r ->]].
  rewrite !length_app. lia.
Qed.

(** Lower-casing never turns a character into or out of whitespace. *)
Lemma isspace_lower_char (c : ascii) : isspace (lower_char c) = isspace c.
Proof.
  destruct c as [[] [] [] [] [] [] [] []]; vm_compute; reflexivity.
Qed.

Lemma lower_rev (s : str) : lower (rev s) = rev (lower s).
Proof. unfold lower. now rewrite map_rev. Qed.

Lemma lstrip_lower (s : str) : lstrip (lower s) = lower (lstrip s).
Proof.
  unfold lstrip. induction s as [|c s IH]; simpl; [reflexivity|].
  rewrite isspace_lower_char. destruct (isspace c); [exact IH|reflexivity].
Qed.

Lemma strip_lower (s : str) : strip (lower s) = lower (strip s).
Proof.
  unfold strip, rstrip.
  now rewrite lstrip_lower, <- lower_rev, lstrip_lower, lower_rev.
Qed.

Lemma dropwhile_app_stop (p : ascii -> bool) (l1 l2 : str) (c : ascii) :
  p c = false -> dropwhile p (l1 ++ c :: l2) = dropwhile p l1 ++ c :: l2.
Proof.
  intros Hc. induction l1 as [|d l1 IH]; simpl.
  - now rewrite Hc.
  - destruct (p d); [exact IH|reflexivity].
Qed.

Lemma dropwhile_all (p : ascii -> bool) (s : str) :
  forallb p s = true -> dropwhile p s = [].
Proof.
  induction s as [|c s IH]; simpl; [reflexivity|].
  intros H. apply andb_true_iff in H as [-> Hs]. auto.
Qed.

Lemma lstrip_cons (c : ascii) (s : str) :
  isspace c = false -> lstrip (c :: s) = c :: s.
Proof. intros H. unfold lstrip. simpl. now rewrite H. Qed.

(** A non-blank character guards everything to its left against
    [rstrip]. *)
Lemma rstrip_app_keep (p r : str) (e : ascii) :
  isspace e = false -> rstrip (p ++ e :: r) = p ++ e :: rstrip r.
Proof.
  intros He. unfold rstrip, lstrip.
  rewrite rev_app_distr. simpl rev. rewrite <- app_assoc. simpl.
  rewrite dropwhile_app_stop by exact He.
  rewrite rev_app_distr. simpl rev.
  now rewrite rev_involutive, <- app_assoc.
Qed.

Lemma strip_cons (c : ascii) (s : str) :
  isspace c = false -> strip (c :: s) = c :: rstrip s.
Proof.
  intros H. unfold strip. rewrite lstrip_cons by exact H.
  apply (rstrip_app_keep [] s c H).
Qed.

Lemma strip_blank (s : str) : forallb isspace s = true -> strip s = [].
Proof.
  intros H. unfold strip, lstrip. now rewrite dropwhile_all.
Qed.

(** A string that begins and ends with non-blank characters is its own
    [strip]. *)
Lemma strip_fixed (c e : ascii) (m : str) :
  isspace c = false -> isspace e = false ->
  strip (c :: m ++ [e]) = c :: m ++ [e].
Proof.
  intros Hc He. rewrite strip_cons by exact Hc.
  now rewrite (rstrip_app_keep m [] e He).
Qed.

End StringFacts.

(* ================================================================== *)
(** ** The matcher *)

Section Matcher.

Lemma in_triggers (key : str) (data : TopicRecord) (t : str) :
  In t (triggers key data) <-> Spec.is_trigger key data t.
Proof.
  unfold triggers, Spec.is_trigger. simpl. rewrite in_map_iff. split.
  - intros [H | [a [Ha Hin]]]; [now left | right; now exists a].
  - intros [H | [a [Hin Ha]]]; [now left | right; now exists a].
Qed.

Lemma trigger_hit_iff (text t : str) :
  trigger_hit text t = true <->
  (text = t \/ Spec.starts_with text t \/ Spec.ends_with text t \/
   Spec.occurs_in (lit " " ++ t ++ lit " ") (lit " " ++ text ++ lit " ")).
Proof.
  unfold trigger_hit, Spec.starts_with, Spec.ends_with, Spec.occurs_in.
  rewrite !orb_true_iff, str_in_iff, startswith_iff, endswith_iff, str_eqb_eq.
  tauto.
Qed.

Lemma topic_matches_iff (text key : str) (data : TopicRecord) :
  topic_matches text key data = true <-> Spec.matched text key data.
Proof.
  unfold topic_matches, Spec.matched. rewrite existsb_exists. split.
  - intros [t [Hin Hhit]]. exists t.
    split; [now apply in_triggers | now apply trigger_hit_iff].
  - intros [t [Htrig Hhit]]. exists t.
    split; [now apply in_triggers | now apply trigger_hit_iff].
Qed.

Lemma topic_matches_false_iff (text key : str) (data : TopicRecord) :
  topic_matches text key data = false <-> ~ Spec.matched text key data.
Proof.
  rewrite <- topic_matches_iff. now destruct (topic_matches text key data).
Qed.

(** The loop stops at an item of the store, the item matches, and nothing
    before it does. *)
Lemma matched_topic_some (items : KnowledgeBase) (text key : str)
    (data : TopicRecord) :
  matched_topic items text = Some (key, data) <->
  exists before after,
    items = before ++ (key, data) :: after /\
    topic_matches text key data = true /\
    Forall (fun kd => topic_matches text (fst kd) (snd kd) = false) before.
Proof.
  induction items as [|[k d] rest IH]; simpl.
  - split; [discriminate|]. intros [[|x before] [after [H _]]]; discriminate.
  - destruct (topic_matches text k d) eqn:Hm.
    + split.
      * intros H. injection H as -> ->. exists [], rest. auto.
      * intros [[|x before] [after [Heq [Hkd Hbefore]]]].
        -- simpl in Heq. now injection Heq as -> ->.
        -- simpl in Heq. injection Heq as <- _.
           inversion Hbefore as [|? ? Hx _]. simpl in Hx. congruence.
    + rewrite IH. split.
      * intros [before [after [-> [Hkd Hbefore]]]].
        exists ((k, d) :: before), after. repeat split; auto.
      * intros [[|x before] [after [Heq [Hkd Hbefore]]]].
        -- simpl in Heq. injection Heq as -> ->. congruence.
        -- simpl in Heq. injection Heq as _ ->.
           exists before, after. inversion Hbefore. auto.
Qed.

Lemma matched_topic_none (items : KnowledgeBase) (text : str) :
  matched_topic items text = None <->
  Forall (fun kd => topic_matches text (fst kd) (snd kd) = false) items.
Proof.
  induction items as [|[k d] rest IH]; simpl.
  - split; auto.
  - destruct (topic_matches text k d) eqn:Hm.
    + split; [discriminate|]. intros H. inversion H as [|? ? Hx _].
      simpl in Hx. congruence.
    + rewrite IH. split; intros H.
      * constructor; auto.
      * now inversion H.
Qed.

Lemma matched_topic_skip (before after : KnowledgeBase) (text key : str)
    (data : TopicRecord) :
  Forall (fun kd => topic_matches text (fst kd) (snd kd) = false) before ->
  topic_matches text key data = true ->
  matched_topic (before ++ (key, data) :: after) text = Some (key, data).
Proof.
  intros Hbefore Hkd. apply matched_topic_some. now exists before, after.
Qed.

(** What [get_ai_response] returns once the loop has stopped at a topic. *)
Lemma get_ai_response_matched (kb : KnowledgeBase) (player_name message key : str)
    (data : TopicRecord) :
  matched_topic kb (strip (lower message)) = Some (key, data) ->
  get_ai_response kb player_name message = strip (topic_response key data).
Proof. intros H. unfold get_ai_response. now rewrite H. Qed.

End Matcher.

(** C1. For every knowledge store and every input text: a topic's match
    condition holds exactly when the trimmed, lower-cased text equals one of
    its triggers (lower-cased key or alias), starts with one, ends with one,
    or, padded with one space on each side, contains one padded the same
    way; the scan stops at the first topic in store order for which it
    holds, stops nowhere when it holds for none, and the reply is built from
    the topic at which it stops. *)
Theorem matcher_first_match_wins :
  forall (store : KnowledgeBase) (speaker message key : str) (data : TopicRecord),
    (topic_matches (strip (lower message)) key data = true <->
     Spec.matched (strip (lower message)) key data) /\
    (matched_topic store (strip (lower message)) = Some (key, data) <->
     Spec.first_matched store (strip (lower message)) key data) /\
    (matched_topic store (strip (lower message)) = None <->
     forall k d, In (k, d) store -> ~ Spec.matched (strip (lower message)) k d) /\
    (Spec.first_matched store (strip (lower message)) key data ->
     get_ai_response store speaker message = strip (topic_response key data)).
Proof.
  intros store speaker message key data.
  set (text := strip (lower message)).
  assert (Hsome : matched_topic store text = Some (key, data) <->
                  Spec.first_matched store text key data).
  { rewrite matched_topic_some. unfold Spec.first_matched.
    split; intros [before [after [Heq [Hkd Hbefore]]]];
      exists before, after; (split; [exact Heq|]); split.
    - now apply topic_matches_iff.
    - eapply Forall_impl; [|exact Hbefore].
      intros kd. apply topic_matches_false_iff.
    - now apply topic_matches_iff.
    - eapply Forall_impl; [|exact Hbefore].
      intros kd. apply topic_matches_false_iff. }
  split; [apply topic_matches_iff|].
  split; [exact Hsome|]. split.
  - rewrite matched_topic_none, Forall_forall. split.
    + intros H k d Hin. apply topic_matches_false_iff. exact (H (k, d) Hin).
    + intros H [k d] Hin. apply topic_matches_false_iff. now apply H.
  - intros H. apply get_ai_response_matched. now apply Hsome.
Qed.

(** The scenarios the specification lists, run on the model. *)
Example coffee_shop_scenario :
  get_ai_response coffee_store (lit "Alex")
                  (lit "tell me about the coffee shop please")
  = lit "Regarding CoffeeShop:" ++ nl ++ lit "Best beans in town".
Proof. vm_compute. reflexivity. Qed.

Example hello_there_scenario :
  get_ai_response coffee_store (lit "Alex") (lit "hello there")
  = hello_response (lit "Alex").
Proof. vm_compute. reflexivity. Qed.

Example help_scenario :
  get_ai_response coffee_store (lit "Alex") (lit "What can you do?")
  = lit "I can tell you about: CoffeeShop. I also notify owners when certain items are interacted with."
  /\
  get_ai_response [] (lit "Alex") (lit "help")
  = lit "I can tell you about: any specific topics yet. I also notify owners when certain items are interacted with.".
Proof. split; vm_compute; reflexivity. Qed.

(* ================================================================== *)
(** ** Replies *)

Section Replies.

Lemma topic_response_shape (key : str) (data : TopicRecord) :
  topic_response key data =
  lit "Regarding " ++ key ++ lit ":" ++ nl ++
  get (description data) (lit "No description available.") ++
  optional_lines data.
Proof.
  unfold topic_response, optional_lines.
  destruct (truthy (get (details data) []));
    destruct (truthy (get (website data) []));
    destruct (truthy (get (contact data) []));
    repeat (rewrite <- ?app_assoc, ?app_nil_r; simpl); reflexivity.
Qed.

(** The final [strip] leaves the heading of a topic reply in place. *)
Lemma strip_topic_response (key : str) (data : TopicRecord) :
  strip (topic_response key data) =
  (lit "Regarding " ++ key ++ lit ":") ++
  rstrip (nl ++ get (description data) (lit "No description available.") ++
          optional_lines data).
Proof.
  rewrite topic_response_shape.
  set (rest := nl ++ get (description data) (lit "No description available.")
               ++ optional_lines data).
  replace (lit "Regarding " ++ key ++ lit ":" ++ rest)
    with ("R"%char :: (lit "egarding " ++ key) ++ ":"%char :: rest)
    by reflexivity.
  rewrite strip_cons by reflexivity.
  rewrite rstrip_app_keep by reflexivity.
  simpl. now rewrite <- !app_assoc.
Qed.

Lemma trigger_hit_self (t : str) : trigger_hit t t = true.
Proof.
  unfold trigger_hit. rewrite str_eqb_refl. apply orb_true_r.
Qed.

Lemma trigger_hit_empty (text : str) : trigger_hit text [] = true.
Proof.
  unfold trigger_hit. rewrite startswith_nil.
  now rewrite orb_true_r.
Qed.

(** A non-empty trigger never hits the empty text. *)
Lemma trigger_hit_blank (c : ascii) (t : str) : trigger_hit [] (c :: t) = false.
Proof.
  unfold trigger_hit.
  destruct (str_in (lit " " ++ (c :: t) ++ lit " ") (lit " " ++ [] ++ lit " "))
    eqn:Hin.
  - apply str_in_length in Hin. rewrite !length_app in Hin.
    simpl in Hin. lia.
  - simpl. unfold endswith. simpl.
    destruct (rev t ++ [c]) eqn:Hr; [|reflexivity].
    now apply app_eq_nil in Hr as [_ Hr].
Qed.

Lemma topic_matches_own_key (key : str) (data : TopicRecord) :
  topic_matches (lower key) key data = true.
Proof.
  unfold topic_matches, triggers. simpl.
  now rewrite trigger_hit_self.
Qed.

End Replies.

(** C2, as stated, fails.  In [shadowed_store] the key ["a b"] starts with
    the earlier key ["a"], so the earlier topic answers; in
    [padded_key_store] the key carries surrounding blanks, which the message
    loses in normalization and the trigger keeps, so no topic answers. *)
Lemma key_reply_heading_counterexample :
  In (lit "a b") (map fst shadowed_store) /\
  get_ai_response shadowed_store (lit "Alex") (lit "a b")
    = lit "Regarding a:" ++ nl ++ lit "x" /\
  str_in (lit "Regarding a b:")
         (get_ai_response shadowed_store (lit "Alex") (lit "a b")) = false /\
  In (lit " shop ") (map fst padded_key_store) /\
  get_ai_response padded_key_store (lit "Alex") (lit " shop ")
    = sorry_response (lit "Alex") /\
  str_in (lit "Regarding  shop :")
         (get_ai_response padded_key_store (lit "Alex") (lit " shop ")) = false.
Proof.
  repeat split; try (vm_compute; reflexivity); simpl; auto.
Qed.

(** C2, amended. For every topic key K of the store that has no leading or
    trailing whitespace and whose topic is the first one in store order that
    the lower-cased K matches, and for every speaker, the reply to K contains
    "Regarding K:". *)
Theorem key_reply_heading :
  forall (before after : KnowledgeBase) (key : str) (data : TopicRecord)
         (speaker : str),
    strip key = key ->
    Forall (fun kd => topic_matches (lower key) (fst kd) (snd kd) = false)
           before ->
    str_in (lit "Regarding " ++ key ++ lit ":")
           (get_ai_response (before ++ (key, data) :: after) speaker key)
    = true.
Proof.
  intros before after key data speaker Hstrip Hbefore.
  assert (Htext : strip (lower key) = lower key)
    by now rewrite strip_lower, Hstrip.
  rewrite (get_ai_response_matched _ speaker key key data).
  - rewrite strip_topic_response. apply str_in_prefix.
  - rewrite Htext. apply matched_topic_skip; [exact Hbefore|].
    apply topic_matches_own_key.
Qed.

Lemma key_reply_heading_witness :
  strip (lit "CoffeeShop") = lit "CoffeeShop" /\
  topic_matches (lower (lit "CoffeeShop")) (lit "Bakery")
                (mkTopic None None None None None) = false /\
  str_in (lit "Regarding CoffeeShop:")
         (get_ai_response
            ([(lit "Bakery", mkTopic None None None None None)] ++
             (lit "CoffeeShop",
              mkTopic (Some [lit "coffee"]) (Some (lit "Best beans in town"))
                      None None None) :: [])
            (lit "Alex") (lit "CoffeeShop"))
  = true.
Proof.
  split; [reflexivity|]. split; [reflexivity|].
  apply (key_reply_heading
           [(lit "Bakery", mkTopic None None None None None)] []
           (lit "CoffeeShop")
           (mkTopic (Some [lit "coffee"]) (Some (lit "Best beans in town"))
                    None None None)
           (lit "Alex")).
  - reflexivity.
  - repeat constructor.
Defined.

Section ReplyShapes.

Lemma strip_head_nonblank (c : ascii) (s : str) :
  isspace c = false -> 0 < List.length (strip (c :: s)).
Proof. intros H. rewrite strip_cons by exact H. simpl. lia. Qed.

Lemma strip_sorry_response (player_name : str) :
  strip (sorry_response player_name) = sorry_response player_name.
Proof.
  unfold sorry_response.
  replace (lit "Sorry " ++ player_name ++
           lit ", I didn't quite catch that. You can ask me about the businesses or topics I know.")
    with ("S"%char ::
          (lit "orry " ++ player_name ++
           lit ", I didn't quite catch that. You can ask me about the businesses or topics I know")
          ++ ["."%char])
    by (simpl; now rewrite <- app_assoc).
  now apply strip_fixed.
Qed.

Lemma blank_text (message : str) :
  forallb isspace message = true -> strip (lower message) = [].
Proof.
  intros H. now rewrite strip_lower, strip_blank.
Qed.

Lemma topic_matches_blank (key : str) (data : TopicRecord) :
  key <> [] -> ~ In [] (get (aliases data) []) ->
  topic_matches [] key data = false.
Proof.
  intros Hkey Hal. unfold topic_matches, triggers. simpl.
  destruct key as [|c key]; [contradiction|]. simpl.
  rewrite trigger_hit_blank. simpl.
  induction (get (aliases data) []) as [|a l IH]; simpl; [reflexivity|].
  destruct a as [|d a]; [exfalso; apply Hal; now left|].
  simpl. rewrite trigger_hit_blank. apply IH.
  intros Hin. apply Hal. now right.
Qed.

Lemma topic_matches_empty_trigger (text key : str) (data : TopicRecord) :
  In [] (key :: get (aliases data) []) -> topic_matches text key data = true.
Proof.
  intros Hin. unfold topic_matches. apply existsb_exists. exists [].
  split; [|apply trigger_hit_empty].
  unfold triggers. simpl in *. destruct Hin as [-> | Hin]; [now left|].
  right. change (@nil ascii) with (lower []). now apply in_map.
Qed.

End ReplyShapes.

(** Over typed topic records, where no operation of its body can fail,
    [get_ai_response] returns a non-empty string for every store, speaker
    name and input text. *)
Lemma get_ai_response_nonempty :
  forall (store : KnowledgeBase) (speaker message : str),
    0 < List.length (get_ai_response store speaker message).
Proof.
  intros store speaker message. unfold get_ai_response.
  destruct (matched_topic store (strip (lower message))) as [[key data]|];
    cbv beta iota zeta.
  - simpl negb. cbv iota.
    rewrite strip_topic_response, length_app. simpl. lia.
  - simpl negb. cbv iota.
    repeat match goal with
           | |- context [if ?b then _ else _] => destruct b
           end; now apply strip_head_nonblank.
Qed.

(** C5, as stated, fails: a topic with an empty key matches the empty and the
    blank message, and its reply is returned. *)
Lemma blank_message_counterexample :
  matched_topic empty_key_store (strip (lower (lit "")))
    = Some (lit "", mkTopic None None None None None) /\
  get_ai_response empty_key_store (lit "Alex") (lit "")
    = lit "Regarding :" ++ nl ++ lit "No description available." /\
  forallb isspace (lit "   ") = true /\
  get_ai_response empty_key_store (lit "Alex") (lit "   ")
    = lit "Regarding :" ++ nl ++ lit "No description available.".
Proof. repeat split; vm_compute; reflexivity. Qed.

(** C5, amended. For every store in which no topic has an empty key or an
    empty alias, and every speaker, the empty message and every
    whitespace-only message match no topic and get the generic "didn't
    understand" reply. *)
Theorem blank_message_generic_reply :
  forall (store : KnowledgeBase) (speaker message : str),
    Forall (fun kd => fst kd <> [] /\ ~ In [] (get (aliases (snd kd)) []))
           store ->
    forallb isspace message = true ->
    matched_topic store (strip (lower message)) = None /\
    get_ai_response store speaker message = sorry_response speaker.
Proof.
  intros store speaker message Hstore Hblank.
  assert (Hnone : matched_topic store (strip (lower message)) = None).
  { rewrite (blank_text message Hblank). apply matched_topic_none.
    eapply Forall_impl; [|exact Hstore].
    intros [k d] [Hk Ha]. now apply topic_matches_blank. }
  split; [exact Hnone|].
  unfold get_ai_response. rewrite Hnone.
  rewrite (blank_text message Hblank). simpl.
  apply strip_sorry_response.
Qed.

Lemma blank_message_generic_reply_witness :
  forallb isspace (lit "  ") = true /\
  matched_topic
    [(lit "CoffeeShop", mkTopic (Some [lit "coffee"]) None None None None)]
    (strip (lower (lit "  "))) = None /\
  get_ai_response
    [(lit "CoffeeShop", mkTopic (Some [lit "coffee"]) None None None None)]
    (lit "Alex") (lit "  ") = sorry_response (lit "Alex").
Proof.
  split; [reflexivity|].
  apply (blank_message_generic_reply
           [(lit "CoffeeShop", mkTopic (Some [lit "coffee"]) None None None None)]
           (lit "Alex") (lit "  ")).
  - constructor; [|constructor]. simpl. split; [discriminate|].
    intros [H|[]]. discriminate.
  - reflexivity.
Defined.

(** C9. If a topic has an empty-string key or an empty-string alias, its
    match condition holds for every input text; hence for every message the
    reply is that topic's reply, unless an earlier topic of the store matches
    the message. *)
Theorem empty_trigger_matches_everything :
  forall (before after : KnowledgeBase) (key : str) (data : TopicRecord)
         (speaker message : str),
    In [] (key :: get (aliases data) []) ->
    Forall (fun kd =>
              topic_matches (strip (lower message)) (fst kd) (snd kd) = false)
           before ->
    (forall text, topic_matches text key data = true) /\
    matched_topic (before ++ (key, data) :: after) (strip (lower message))
      = Some (key, data) /\
    get_ai_response (before ++ (key, data) :: after) speaker message
      = strip (topic_response key data).
Proof.
  intros before after key data speaker message Hempty Hbefore.
  assert (Hall : forall text, topic_matches text key data = true)
    by (intros text; now apply topic_matches_empty_trigger).
  assert (Hstop : matched_topic (before ++ (key, data) :: after)
                                (strip (lower message)) = Some (key, data))
    by (apply matched_topic_skip; auto).
  repeat split; auto.
  now apply get_ai_response_matched.
Qed.

Lemma empty_trigger_matches_everything_witness :
  In [] (lit "Lobby" :: [lit ""]) /\
  topic_matches (strip (lower (lit "where is the pool"))) (lit "Bakery")
                (mkTopic None None None None None) = false /\
  topic_matches (lit "anything at all") (lit "Lobby")
      (mkTopic (Some [lit ""]) (Some (lit "Main hall")) None None None)
    = true /\
  get_ai_response
    ([(lit "Bakery", mkTopic None None None None None)] ++
     (lit "Lobby",
      mkTopic (Some [lit ""]) (Some (lit "Main hall")) None None None) :: [])
    (lit "Alex") (lit "where is the pool")
    = lit "Regarding Lobby:" ++ nl ++ lit "Main hall".
Proof.
  split; [right; left; reflexivity|]. split; [reflexivity|].
  destruct (empty_trigger_matches_everything
              [(lit "Bakery", mkTopic None None None None None)] []
              (lit "Lobby")
              (mkTopic (Some [lit ""]) (Some (lit "Main hall")) None None None)
              (lit "Alex") (lit "where is the pool"))
    as [Hall [_ Hreply]].
  - right. left. reflexivity.
  - repeat constructor.
  - split; [apply Hall | exact Hreply].
Defined.

(** C10. For a matched topic whose record has no "description" field, the
    reply is the "Regarding {key}:" line followed by the placeholder
    "No description available." (and the optional lines); for one whose
    description is present and empty, the empty string is inserted as it is:
    the "Regarding {key}:" line is followed by an empty description line (and
    the optional lines). *)
Theorem description_placeholder :
  forall (store : KnowledgeBase) (speaker message key : str)
         (data : TopicRecord),
    matched_topic store (strip (lower message)) = Some (key, data) ->
    (description data = None ->
     topic_response key data
       = lit "Regarding " ++ key ++ lit ":" ++ nl ++
         lit "No description available." ++ optional_lines data /\
     get_ai_response store speaker message
       = (lit "Regarding " ++ key ++ lit ":" ++ nl ++
          lit "No description available.") ++ rstrip (optional_lines data)) /\
    (description data = Some [] ->
     topic_response key data
       = lit "Regarding " ++ key ++ lit ":" ++ nl ++ [] ++ optional_lines data /\
     get_ai_response store speaker message
       = (lit "Regarding " ++ key ++ lit ":") ++
         rstrip (nl ++ [] ++ optional_lines data)).
Proof.
  intros store speaker message key data Hstop.
  rewrite (get_ai_response_matched store speaker message key data Hstop).
  rewrite strip_topic_response, topic_response_shape.
  split; intros Hdesc; rewrite Hdesc; unfold get; (split; [reflexivity|]).
  - replace (nl ++ lit "No description available." ++ optional_lines data)
      with ((nl ++ lit "No description available") ++
            "."%char :: optional_lines data) by reflexivity.
    rewrite rstrip_app_keep by reflexivity.
    simpl. now rewrite <- !app_assoc.
  - reflexivity.
Qed.

Lemma description_placeholder_witness :
  matched_topic
    [(lit "Shop", mkTopic None None None (Some (lit "shop.example")) None)]
    (strip (lower (lit "the shop")))
    = Some (lit "Shop", mkTopic None None None (Some (lit "shop.example")) None) /\
  get_ai_response
    [(lit "Shop", mkTopic None None None (Some (lit "shop.example")) None)]
    (lit "Alex") (lit "the shop")
    = lit "Regarding Shop:" ++ nl ++ lit "No description available." ++ nl ++
      lit "Website: shop.example" /\
  get_ai_response
    [(lit "Shop", mkTopic None (Some []) None (Some (lit "shop.example")) None)]
    (lit "Alex") (lit "the shop")
    = lit "Regarding Shop:" ++ nl ++ nl ++ lit "Website: shop.example".
Proof.
  split; [reflexivity|]. split.
  - exact (proj2 (proj1 (description_placeholder
             [(lit "Shop", mkTopic None None None (Some (lit "shop.example")) None)]
             (lit "Alex") (lit "the shop") (lit "Shop")
             (mkTopic None None None (Some (lit "shop.example")) None)
             eq_refl) eq_refl)).
  - exact (proj2 (proj2 (description_placeholder
             [(lit "Shop", mkTopic None (Some []) None (Some (lit "shop.example")) None)]
             (lit "Alex") (lit "the shop") (lit "Shop")
             (mkTopic None (Some []) None (Some (lit "shop.example")) None)
             eq_refl) eq_refl)).
Defined.

(* ================================================================== *)
(** ** Effects of the handlers *)

Section Effects.

Variable env : Env.

(** [send_osc_to_vrchat] absorbs every exception; it calls the client once
    when there is one and not at all otherwise. *)
Lemma send_osc_to_vrchat_effect (address : str) (args : list osc_arg) (w : World) :
  fst (send_osc_to_vrchat env address args w) = Return tt /\
  CONFIG (snd (send_osc_to_vrchat env address args w)) = CONFIG w /\
  knowledge_base (snd (send_osc_to_vrchat env address args w)) = knowledge_base w /\
  http_out (snd (send_osc_to_vrchat env address args w)) = http_out w /\
  osc_out (snd (send_osc_to_vrchat env address args w)) =
    osc_out w ++ match vrchat_osc_client w with
                 | Some _ => [(address, args)]
                 | None => []
                 end.
Proof.
  unfold send_osc_to_vrchat, bind, read, try_except, client_send_message,
    print, index, ret.
  destruct (vrchat_osc_client w) as [c|]; simpl.
  - destruct (send_message env c address args); simpl; [auto 6|].
    destruct (negb (str_eqb address chatbox_address)); simpl; [|auto 6].
    destruct (vrchat_client_ip (CONFIG w)); simpl; [|auto 6].
    destruct (vrchat_client_port (CONFIG w)); simpl; auto 6.
  - rewrite app_nil_r. auto 6.
Qed.


Lemma ai_response_truncated_long (ai_response : str) :
  144 < List.length ai_response ->
  List.length (ai_response_truncated ai_response) = 144 /\
  ai_response_truncated ai_response = firstn 141 ai_response ++ lit "...".
Proof.
  intros H. unfold ai_response_truncated.
  apply Nat.ltb_lt in H. rewrite H. split; [|reflexivity].
  apply Nat.ltb_lt in H.
  rewrite length_app, length_firstn.
  change (List.length (lit "...")) with 3. lia.
Qed.

Lemma ai_response_truncated_short (ai_response : str) :
  List.length ai_response <= 144 ->
  ai_response_truncated ai_response = ai_response.
Proof.
  intros H. unfold ai_response_truncated.
  now apply Nat.ltb_ge in H as ->.
Qed.

(** The handler on a message that passes validation: two log lines, an
    optional truncation warning, then one call of [send_osc_to_vrchat]. *)
Lemma handle_chat_message_valid (playerName playerId : str) (message : osc_arg)
    (text : str) (w : World) :
  chat_text message = Some text ->
  exists w',
    handle_chat_message env playerName playerId message w =
    send_osc_to_vrchat env chatbox_address
      [OscBool true;
       OscStr (ai_response_truncated
                 (get_ai_response (knowledge_base w) playerName text))] w' /\
    CONFIG w' = CONFIG w /\ knowledge_base w' = knowledge_base w /\
    vrchat_osc_client w' = vrchat_osc_client w /\
    osc_out w' = osc_out w /\ http_out w' = http_out w.
Proof.
  intros Htext. unfold handle_chat_message. rewrite Htext.
  unfold bind, read, print, ret. cbn [knowledge_base].
  destruct (144 <? List.length (get_ai_response (knowledge_base w) playerName text));
    eexists; (split; [reflexivity|]); cbn; auto.
Qed.

End Effects.

(** C3. For every chat message that passes validation (and so produces a
    reply), the only string the handler passes on for sending is the
    truncation of the computed reply: when the reply is longer than 144
    characters it is exactly 144 characters long, the first 141 characters of
    the reply followed by "..."; when the reply has 144 characters or fewer
    it is the reply unchanged. *)
Theorem chat_reply_truncation :
  forall (env : Env) (playerName playerId : str) (message : osc_arg)
         (text : str) (w : World),
    chat_text message = Some text ->
    osc_out (snd (handle_chat_message env playerName playerId message w)) =
      osc_out w ++
      match vrchat_osc_client w with
      | Some _ =>
          [(chatbox_address,
            [OscBool true;
             OscStr (ai_response_truncated
                       (get_ai_response (knowledge_base w) playerName text))])]
      | None => []
      end /\
    (144 < List.length (get_ai_response (knowledge_base w) playerName text) ->
     List.length (ai_response_truncated
                    (get_ai_response (knowledge_base w) playerName text)) = 144 /\
     ai_response_truncated (get_ai_response (knowledge_base w) playerName text)
       = firstn 141 (get_ai_response (knowledge_base w) playerName text)
         ++ lit "...") /\
    (List.length (get_ai_response (knowledge_base w) playerName text) <= 144 ->
     ai_response_truncated (get_ai_response (knowledge_base w) playerName text)
       = get_ai_response (knowledge_base w) playerName text).
Proof.
  intros env playerName playerId message text w Htext.
  split; [|split].
  - destruct (handle_chat_message_valid env playerName playerId message text w Htext)
      as [w' [-> [_ [_ [Hclient [Hosc _]]]]]].
    destruct (send_osc_to_vrchat_effect env chatbox_address
                [OscBool true;
                 OscStr (ai_response_truncated
                           (get_ai_response (knowledge_base w) playerName text))]
                w') as [_ [_ [_ [_ ->]]]].
    now rewrite Hclient, Hosc.
  - apply ai_response_truncated_long.
  - apply ai_response_truncated_short.
Qed.

Lemma chat_reply_truncation_witness :
  chat_text (OscStr (lit " shop ")) = Some (lit "shop") /\
  osc_out (snd (handle_chat_message quiet_env (lit "Alex") (lit "7")
                  (OscStr (lit " shop ")) world_long_topic))
    = [(chatbox_address,
        [OscBool true;
         OscStr (lit "Regarding Shop:" ++ nl ++ repeat "x"%char 125 ++ lit "...")])].
Proof.
  split; [reflexivity|].
  exact (proj1 (chat_reply_truncation quiet_env (lit "Alex") (lit "7")
                  (OscStr (lit " shop ")) (lit "shop") world_long_topic eq_refl)).
Defined.



(** Over a typed configuration (owner ids that are strings):  without a
    webhook URL, [send_discord_notification] issues no HTTP request, changes
    nothing and returns normally; with one, it issues exactly one POST to
    that URL, with the 10-second timeout, whose JSON body content is the
    space-joined owner mentions, a newline and the message, trimmed, and
    returns normally whatever the status code or the transport error. *)
Lemma notification_post :
  forall (env : Env) (message : str) (w : World),
    fst (send_discord_notification env message w) = Return tt /\
    osc_out (snd (send_discord_notification env message w)) = osc_out w /\
    http_out (snd (send_discord_notification env message w)) =
      http_out w ++
      match discord_webhook_url (CONFIG w) with
      | Some (c :: url) =>
          [mkPost (c :: url)
                  (strip (join (lit " ") (get (owner_discord_ids (CONFIG w)) [])
                          ++ nl ++ message))
                  10]
      | _ => []
      end /\
    (get (discord_webhook_url (CONFIG w)) [] = [] ->
     send_discord_notification env message w = (Return tt, w)).
Proof.
  intros env message w.
  unfold send_discord_notification, bind, read, ret.
  destruct (discord_webhook_url (CONFIG w)) as [[|c url]|] eqn:Hurl;
    cbn [get truthy negb];
    try (rewrite app_nil_r; repeat split; auto; discriminate).
  replace (match get (owner_discord_ids (CONFIG w)) [] with
           | [] => []
           | _ :: _ => join (lit " ") (get (owner_discord_ids (CONFIG w)) [])
           end)
    with (join (lit " ") (get (owner_discord_ids (CONFIG w)) []))
    by (destruct (get (owner_discord_ids (CONFIG w)) []); reflexivity).
  set (req := mkPost (c :: url) _ 10).
  unfold try_except, bind, post, raise_for_status, print, raise, ret.
  destruct (requests_post env req) as [status_code|e]; cbn [fst snd].
  - destruct ((400 <=? status_code) && (status_code <? 600)); cbn;
      repeat split; auto; discriminate.
  - destruct (exn_cls e); cbn; repeat split; auto; discriminate.
Qed.

Lemma load_knowledge_base_effect (env : Env) (w : World) :
  fst (load_knowledge_base env w) = Return tt /\
  knowledge_base (snd (load_knowledge_base env w)) = file_topics env (CONFIG w).
Proof.
  unfold load_knowledge_base, file_topics, bind, read, try_except,
    open_and_load, assign_knowledge_base, print, raise, ret.
  simpl.
  destruct (json_load env _) as [kb|e]; simpl; [auto|].
  destruct (exn_cls e); simpl; auto.
Qed.

(** C8, as stated, fails.  "coffee shop" is a trigger of the first file
    only; after the second file, whose one key is "Coffee", has replaced the
    store, that text still matches, through the prefix rule of the new
    topic. *)
Lemma reload_trigger_counterexample :
  triggers (lit "Coffee Shop")
           (mkTopic None (Some (lit "Best beans in town")) None None None)
    = [lit "coffee shop"] /\
  triggers (lit "Coffee")
           (mkTopic None (Some (lit "A hot drink")) None None None)
    = [lit "coffee"] /\
  knowledge_base (snd (load_knowledge_base first_env world_without_client))
    = first_file /\
  knowledge_base
    (snd (load_knowledge_base second_env
            (snd (load_knowledge_base first_env world_without_client))))
    = second_file /\
  matched_topic
    (knowledge_base
       (snd (load_knowledge_base second_env
               (snd (load_knowledge_base first_env world_without_client)))))
    (lit "coffee shop")
    = Some (lit "Coffee",
            mkTopic None (Some (lit "A hot drink")) None None None).
Proof. repeat split; vm_compute; reflexivity. Qed.

(** C8, amended.  A second load replaces the store: after it the store holds
    exactly the topics of the second file, whatever the first load had put
    there (no merging); every topic that can match afterwards is one of the
    second file, every trigger in the store is a trigger of a topic of the
    second file, and every reply is the one the second file alone gives.  A
    trigger of the first load matches nothing after the reload exactly when
    it satisfies the match rule of no topic of the second file. *)
Theorem reload_replaces_store :
  forall (env1 env2 : Env) (cfg2 : Config) (w : World),
    knowledge_base (snd (load_knowledge_base env1 w))
      = file_topics env1 (CONFIG w) /\
    fst (load_knowledge_base env2
           (snd (assign_CONFIG cfg2 (snd (load_knowledge_base env1 w)))))
      = Return tt /\
    knowledge_base
      (snd (load_knowledge_base env2
              (snd (assign_CONFIG cfg2 (snd (load_knowledge_base env1 w))))))
      = file_topics env2 cfg2 /\
    (forall text key data,
        matched_topic
          (knowledge_base
             (snd (load_knowledge_base env2
                     (snd (assign_CONFIG cfg2 (snd (load_knowledge_base env1 w)))))))
          text = Some (key, data) ->
        In (key, data) (file_topics env2 cfg2) /\
        topic_matches text key data = true) /\
    (forall t key data,
        In (key, data)
           (knowledge_base
              (snd (load_knowledge_base env2
                      (snd (assign_CONFIG cfg2 (snd (load_knowledge_base env1 w)))))))
        ->
        In t (triggers key data) ->
        exists key2 data2,
          In (key2, data2) (file_topics env2 cfg2) /\ In t (triggers key2 data2)) /\
    (forall text,
        matched_topic (file_topics env2 cfg2) text = None ->
        matched_topic
          (knowledge_base
             (snd (load_knowledge_base env2
                     (snd (assign_CONFIG cfg2 (snd (load_knowledge_base env1 w)))))))
          text = None) /\
    (forall speaker message,
        get_ai_response
          (knowledge_base
             (snd (load_knowledge_base env2
                     (snd (assign_CONFIG cfg2 (snd (load_knowledge_base env1 w)))))))
          speaker message
        = get_ai_response (file_topics env2 cfg2) speaker message) /\
    (forall t key1 data1,
        In (key1, data1) (file_topics env1 (CONFIG w)) ->
        In t (triggers key1 data1) ->
        (matched_topic
           (knowledge_base
              (snd (load_knowledge_base env2
                      (snd (assign_CONFIG cfg2 (snd (load_knowledge_base env1 w)))))))
           t = None <->
         Forall (fun kd => topic_matches t (fst kd) (snd kd) = false)
                (file_topics env2 cfg2))).
Proof.
  intros env1 env2 cfg2 w.
  destruct (load_knowledge_base_effect env1 w) as [_ H1].
  destruct (load_knowledge_base_effect env2
              (snd (assign_CONFIG cfg2 (snd (load_knowledge_base env1 w)))))
    as [Hret H2].
  change (CONFIG (snd (assign_CONFIG cfg2 (snd (load_knowledge_base env1 w)))))
    with cfg2 in H2.
  rewrite H2. split; [exact H1|]. split; [exact Hret|].
  split; [reflexivity|]. split; [|split; [|split; [|split]]].
  - intros text key data Hstop.
    apply matched_topic_some in Hstop as [before [after [-> [Hm _]]]].
    split; [apply in_elt | exact Hm].
  - intros t key data Hin Ht. now exists key, data.
  - intros text Hnone. exact Hnone.
  - reflexivity.
  - intros t key1 data1 _ _. apply matched_topic_none.
Qed.

(* ================================================================== *)
(** ** Further facts about the string operations *)

Section MoreStringFacts.

Lemma lower_char_idempotent (c : ascii) :
  lower_char (lower_char c) = lower_char c.
Proof.
  destruct c as [[] [] [] [] [] [] [] []]; vm_compute; reflexivity.
Qed.

Lemma lower_idempotent (s : str) : lower (lower s) = lower s.
Proof.
  unfold lower. rewrite map_map. apply map_ext.
  intros c. apply lower_char_idempotent.
Qed.

(** What [dropwhile] removes is a run of characters that satisfy the test. *)
Lemma dropwhile_split (p : ascii -> bool) (s : str) :
  exists a, s = a ++ dropwhile p s /\ forallb p a = true.
Proof.
  induction s as [|c s [a [Hs Ha]]]; simpl.
  - now exists [].
  - destruct (p c) eqn:Hc.
    + exists (c :: a). simpl. rewrite Hc, Ha. split; [now f_equal|reflexivity].
    + now exists [].
Qed.

Lemma dropwhile_head (p : ascii -> bool) (s : str) :
  dropwhile p s = [] \/
  exists c r, dropwhile p s = c :: r /\ p c = false.
Proof.
  induction s as [|c s IH]; simpl; [now left|].
  destruct (p c) eqn:Hc; [exact IH|].
  right. now exists c, s.
Qed.

Lemma lstrip_idempotent (s : str) : lstrip (lstrip s) = lstrip s.
Proof.
  unfold lstrip. destruct (dropwhile_head isspace s) as [-> | [c [r [-> Hc]]]].
  - reflexivity.
  - simpl. now rewrite Hc.
Qed.

Lemma rstrip_idempotent (s : str) : rstrip (rstrip s) = rstrip s.
Proof.
  unfold rstrip. now rewrite rev_involutive, lstrip_idempotent.
Qed.

Lemma rstrip_cons (c : ascii) (s : str) :
  isspace c = false -> rstrip (c :: s) = c :: rstrip s.
Proof. intros H. apply (rstrip_app_keep [] s c H). Qed.

Lemma strip_idempotent (s : str) : strip (strip s) = strip s.
Proof.
  unfold strip.
  destruct (dropwhile_head isspace s) as [H | [c [r [H Hc]]]];
    fold (lstrip s) in H; rewrite H.
  - reflexivity.
  - rewrite rstrip_cons by exact Hc.
    rewrite lstrip_cons by exact Hc.
    rewrite rstrip_cons by exact Hc.
    now rewrite rstrip_idempotent.
Qed.

Lemma forallb_rev (p : ascii -> bool) (s : str) :
  forallb p (rev s) = forallb p s.
Proof.
  induction s as [|c s IH]; simpl; [reflexivity|].
  rewrite forallb_app, IH. simpl. rewrite andb_true_r. apply andb_comm.
Qed.

(** [rstrip] removes a run of blanks from the right end and nothing else. *)
Lemma rstrip_split (s : str) :
  exists ws, s = rstrip s ++ ws /\ forallb isspace ws = true.
Proof.
  unfold rstrip, lstrip.
  destruct (dropwhile_split isspace (rev s)) as [a [Hs Ha]].
  exists (rev a). split.
  - rewrite <- rev_app_distr, <- Hs. symmetry. apply rev_involutive.
  - now rewrite forallb_rev.
Qed.

Lemma lstrip_app_stop (x r : str) (c : ascii) :
  isspace c = false -> lstrip (x ++ c :: r) = lstrip x ++ c :: r.
Proof. intros H. unfold lstrip. now apply dropwhile_app_stop. Qed.

(** Blanks in front of a text that begins and ends with non-blank
    characters are all that [strip] removes. *)
Lemma strip_prefixed (x m : str) (c e : ascii) :
  isspace c = false -> isspace e = false ->
  strip (x ++ c :: m ++ [e]) = lstrip x ++ c :: m ++ [e].
Proof.
  intros Hc He. unfold strip. rewrite lstrip_app_stop by exact Hc.
  replace (lstrip x ++ c :: m ++ [e]) with ((lstrip x ++ c :: m) ++ e :: [])
    by now rewrite <- app_assoc.
  now rewrite rstrip_app_keep.
Qed.

Lemma strip_leading_blank (c : ascii) (s : str) :
  isspace c = true -> strip (c :: s) = strip s.
Proof. intros H. unfold strip, lstrip. simpl. now rewrite H. Qed.

(** Every part handed to [join] occurs in the result. *)
Lemma join_occurs (sep part : str) (parts : list str) :
  In part parts -> str_in part (join sep parts) = true.
Proof.
  intros Hin. apply str_in_iff.
  induction parts as [|p rest IH]; [contradiction|].
  destruct Hin as [-> | Hin].
  - destruct rest as [|q rest].
    + exists [], []. simpl. now rewrite app_nil_r.
    + exists [], (sep ++ join sep (q :: rest)). reflexivity.
  - destruct (IH Hin) as [l [r Hlr]].
    destruct rest as [|q rest]; [contradiction|].
    exists (p ++ sep ++ l), r.
    change (join sep (p :: q :: rest)) with (p ++ sep ++ join sep (q :: rest)).
    rewrite Hlr. now rewrite <- !app_assoc.
Qed.

Lemma str_in_app_r (sub l s : str) :
  str_in sub s = true -> str_in sub (l ++ s) = true.
Proof.
  rewrite !str_in_iff. intros [a [b ->]].
  exists (l ++ a), b. now rewrite <- app_assoc.
Qed.

Lemma str_in_app_l (sub s r : str) :
  str_in sub s = true -> str_in sub (s ++ r) = true.
Proof.
  rewrite !str_in_iff. intros [a [b ->]].
  exists a, (b ++ r). now rewrite <- !app_assoc.
Qed.

End MoreStringFacts.

(* ================================================================== *)
(** ** More about the replies *)

Section FallbackReplies.

Lemma strip_hello_response (player_name : str) :
  strip (hello_response player_name) = hello_response player_name.
Proof.
  unfold hello_response.
  replace (lit "Hello " ++ player_name ++
           lit "! How can I help? Ask me about the businesses or items here.")
    with ("H"%char ::
          (lit "ello " ++ player_name ++
           lit "! How can I help? Ask me about the businesses or items here")
          ++ ["."%char])
    by (simpl; rewrite <- ?app_assoc; reflexivity).
  now apply strip_fixed.
Qed.

Lemma strip_welcome_response (player_name : str) :
  strip (welcome_response player_name) = welcome_response player_name.
Proof.
  unfold welcome_response.
  replace (lit "You're welcome, " ++ player_name ++ lit "!")
    with ("Y"%char :: (lit "ou're welcome, " ++ player_name) ++ ["!"%char])
    by (simpl; rewrite <- ?app_assoc; reflexivity).
  now apply strip_fixed.
Qed.

Lemma strip_help_response (kb : KnowledgeBase) :
  strip (help_response kb) = help_response kb.
Proof.
  unfold help_response.
  set (names := if negb (truthy (join (lit ", ") (map fst kb)))
                then lit "any specific topics yet"
                else join (lit ", ") (map fst kb)).
  replace (lit "I can tell you about: " ++ names ++
           lit ". I also notify owners when certain items are interacted with.")
    with ("I"%char ::
          (lit " can tell you about: " ++ names ++
           lit ". I also notify owners when certain items are interacted with")
          ++ ["."%char])
    by (simpl; rewrite <- ?app_assoc; reflexivity).
  now apply strip_fixed.
Qed.

(** The message reaches the body of [get_ai_response] only through its
    normalized form. *)
Lemma get_ai_response_text (kb : KnowledgeBase) (player_name m1 m2 : str) :
  strip (lower m1) = strip (lower m2) ->
  get_ai_response kb player_name m1 = get_ai_response kb player_name m2.
Proof. intros H. unfold get_ai_response. now rewrite H. Qed.

End FallbackReplies.

(** X1. Whatever the store, the speaker and the message, the reply has no
    leading and no trailing whitespace: stripping it again changes
    nothing. *)
Theorem reply_is_stripped :
  forall (store : KnowledgeBase) (speaker message : str),
    strip (get_ai_response store speaker message)
    = get_ai_response store speaker message.
Proof.
  intros store speaker message. unfold get_ai_response.
  destruct (matched_topic store (strip (lower message))) as [[key data]|];
    apply strip_idempotent.
Qed.

(** X2. The reply does not depend on the letter case of the message nor on
    blanks around it: the already lower-cased message, the already trimmed
    message and the trimmed lower-cased message all get the reply of the
    message itself. *)
Theorem reply_ignores_case_and_padding :
  forall (store : KnowledgeBase) (speaker message : str),
    get_ai_response store speaker (lower message)
      = get_ai_response store speaker message /\
    get_ai_response store speaker (strip message)
      = get_ai_response store speaker message /\
    get_ai_response store speaker (strip (lower message))
      = get_ai_response store speaker message.
Proof.
  intros store speaker message. repeat split; apply get_ai_response_text.
  - now rewrite lower_idempotent.
  - now rewrite <- strip_lower, strip_idempotent.
  - now rewrite <- strip_lower, lower_idempotent, strip_idempotent.
Qed.

(** X3. When no topic matches, the reply is exactly one of four templates
    with the speaker name inserted verbatim (the final strip alters none of
    them): the greeting when the normalized text contains "hello" or "hi"
    anywhere, even inside a word; else the help text when it contains "help"
    or "what can you do"; else the thanks reply when it contains "thank";
    else the "didn't catch that" reply. *)
Theorem unmatched_reply_templates :
  forall (store : KnowledgeBase) (speaker message : str),
    matched_topic store (strip (lower message)) = None ->
    get_ai_response store speaker message =
      if str_in (lit "hello") (strip (lower message))
         || str_in (lit "hi") (strip (lower message))
      then hello_response speaker
      else if str_in (lit "help") (strip (lower message))
              || str_in (lit "what can you do") (strip (lower message))
      then help_response store
      else if str_in (lit "thank") (strip (lower message))
      then welcome_response speaker
      else sorry_response speaker.
Proof.
  intros store speaker message Hnone.
  unfold get_ai_response. rewrite Hnone. cbv beta iota zeta. simpl negb.
  cbv iota.
  destruct (str_in (lit "hello") _ || str_in (lit "hi") _);
    [apply strip_hello_response|].
  destruct (str_in (lit "help") _ || str_in (lit "what can you do") _);
    [apply strip_help_response|].
  destruct (str_in (lit "thank") _);
    [apply strip_welcome_response | apply strip_sorry_response].
Qed.

Lemma unmatched_reply_templates_witness :
  matched_topic coffee_store (strip (lower (lit "Thanks for this help"))) = None /\
  get_ai_response coffee_store (lit "Sam ") (lit "Thanks for this help")
    = hello_response (lit "Sam ").
Proof.
  split; [reflexivity|].
  exact (unmatched_reply_templates coffee_store (lit "Sam ")
           (lit "Thanks for this help") eq_refl).
Defined.

Section TopicReplies.

Lemma help_response_lists (kb : KnowledgeBase) (key : str) :
  In key (map fst kb) -> str_in key (help_response kb) = true.
Proof.
  intros Hin. unfold help_response.
  pose proof (join_occurs (lit ", ") key (map fst kb) Hin) as Hocc.
  destruct (join (lit ", ") (map fst kb)) as [|c names] eqn:Hnames; simpl negb;
    cbv iota.
  - apply str_in_iff in Hocc as [l [r Hlr]].
    assert (key = []) as ->.
    { destruct l; [|discriminate]. destruct key; [reflexivity|discriminate]. }
    reflexivity.
  - apply str_in_app_r, str_in_app_l. exact Hocc.
Qed.

Lemma matched_topic_app (a b : KnowledgeBase) (text : str) :
  matched_topic (a ++ b) text =
  match matched_topic a text with
  | Some found => Some found
  | None => matched_topic b text
  end.
Proof.
  induction a as [|[k d] a IH]; simpl; [reflexivity|].
  destruct (topic_matches text k d); [reflexivity|exact IH].
Qed.

Lemma topic_matches_incl (text k1 k2 : str) (d1 d2 : TopicRecord) :
  incl (triggers k2 d2) (triggers k1 d1) ->
  topic_matches text k2 d2 = true -> topic_matches text k1 d1 = true.
Proof.
  unfold topic_matches. rewrite !existsb_exists.
  intros Hincl [t [Hin Hhit]]. exists t. split; [now apply Hincl|exact Hhit].
Qed.

End TopicReplies.

(** X4. When the help text is the reply (no topic matches, the normalized
    text contains "help" or "what can you do" and neither "hello" nor "hi"),
    every topic key of the store occurs in the reply. *)
Theorem help_reply_lists_every_key :
  forall (store : KnowledgeBase) (speaker message key : str),
    matched_topic store (strip (lower message)) = None ->
    str_in (lit "hello") (strip (lower message))
      || str_in (lit "hi") (strip (lower message)) = false ->
    str_in (lit "help") (strip (lower message))
      || str_in (lit "what can you do") (strip (lower message)) = true ->
    In key (map fst store) ->
    get_ai_response store speaker message = help_response store /\
    str_in key (get_ai_response store speaker message) = true.
Proof.
  intros store speaker message key Hnone Hhello Hhelp Hin.
  assert (Hreply : get_ai_response store speaker message = help_response store).
  { unfold get_ai_response. rewrite Hnone. cbv beta iota zeta. simpl negb.
    cbv iota. rewrite Hhello, Hhelp. apply strip_help_response. }
  split; [exact Hreply|].
  rewrite Hreply. now apply help_response_lists.
Qed.

Lemma help_reply_lists_every_key_witness :
  matched_topic shadowed_store (strip (lower (lit "Help me"))) = None /\
  In (lit "a b") (map fst shadowed_store) /\
  get_ai_response shadowed_store (lit "Alex") (lit "Help me")
    = lit "I can tell you about: a, a b. I also notify owners when certain items are interacted with."
  /\
  str_in (lit "a b") (get_ai_response shadowed_store (lit "Alex") (lit "Help me"))
    = true.
Proof.
  split; [reflexivity|]. split; [right; left; reflexivity|].
  apply (help_reply_lists_every_key shadowed_store (lit "Alex") (lit "Help me")
           (lit "a b")); try reflexivity.
  right; left; reflexivity.
Defined.

(** X5. The reply to a matched topic is the composed response with nothing
    but trailing whitespace removed: heading, description and optional lines
    are all kept as they are. *)
Theorem topic_reply_keeps_content :
  forall (store : KnowledgeBase) (speaker message key : str)
         (data : TopicRecord),
    matched_topic store (strip (lower message)) = Some (key, data) ->
    exists ws,
      forallb isspace ws = true /\
      lit "Regarding " ++ key ++ lit ":" ++ nl ++
      get (description data) (lit "No description available.") ++
      optional_lines data
      = get_ai_response store speaker message ++ ws.
Proof.
  intros store speaker message key data Hstop.
  rewrite (get_ai_response_matched store speaker message key data Hstop).
  rewrite strip_topic_response.
  destruct (rstrip_split
              (nl ++ get (description data) (lit "No description available.")
               ++ optional_lines data)) as [ws [Hsplit Hws]].
  exists ws. split; [exact Hws|].
  rewrite <- app_assoc, <- Hsplit. now rewrite <- !app_assoc.
Qed.

Lemma topic_reply_keeps_content_witness :
  exists ws,
    forallb isspace ws = true /\
    lit "Regarding Shop:" ++ nl ++ lit "Open daily  " ++ []
    = get_ai_response
        [(lit "Shop", mkTopic None (Some (lit "Open daily  ")) None None None)]
        (lit "Alex") (lit "shop") ++ ws.
Proof.
  exact (topic_reply_keeps_content
           [(lit "Shop", mkTopic None (Some (lit "Open daily  ")) None None None)]
           (lit "Alex") (lit "shop") (lit "Shop")
           (mkTopic None (Some (lit "Open daily  ")) None None None) eq_refl).
Defined.

(** X6. A topic all of whose triggers are triggers of an earlier topic is
    never the one the scan stops at: deleting it from the store changes the
    outcome of the scan for no text.  Two keys that differ only in letter
    case are the typical instance. *)
Theorem shadowed_topic_never_selected :
  forall (before between after : KnowledgeBase) (k1 k2 : str)
         (d1 d2 : TopicRecord) (text : str),
    incl (triggers k2 d2) (triggers k1 d1) ->
    matched_topic (before ++ (k1, d1) :: between ++ (k2, d2) :: after) text
    = matched_topic (before ++ (k1, d1) :: between ++ after) text.
Proof.
  intros before between after k1 k2 d1 d2 text Hincl.
  rewrite !matched_topic_app.
  destruct (matched_topic before text); [reflexivity|].
  simpl. destruct (topic_matches text k1 d1) eqn:H1; [reflexivity|].
  rewrite !matched_topic_app.
  destruct (matched_topic between text); [reflexivity|].
  simpl. destruct (topic_matches text k2 d2) eqn:H2; [|reflexivity].
  rewrite (topic_matches_incl text k1 k2 d1 d2 Hincl H2) in H1. discriminate.
Qed.

Lemma shadowed_topic_never_selected_witness :
  triggers (lit "shop") (mkTopic None (Some (lit "second")) None None None)
    = triggers (lit "Shop") (mkTopic None (Some (lit "first")) None None None) /\
  matched_topic
    ([] ++ (lit "Shop", mkTopic None (Some (lit "first")) None None None)
        :: [] ++ (lit "shop", mkTopic None (Some (lit "second")) None None None)
        :: [])
    (lit "shop")
  = Some (lit "Shop", mkTopic None (Some (lit "first")) None None None).
Proof.
  split; [reflexivity|].
  exact (shadowed_topic_never_selected [] [] []
           (lit "Shop") (lit "shop")
           (mkTopic None (Some (lit "first")) None None None)
           (mkTopic None (Some (lit "second")) None None None)
           (lit "shop") (fun t H => H)).
Defined.

(** X7. Sending a topic's alias as the message brings back that topic's
    reply, provided the alias has no surrounding whitespace and no earlier
    topic of the store matches it. *)
Theorem alias_brings_topic_reply :
  forall (before after : KnowledgeBase) (key alias : str) (data : TopicRecord)
         (speaker : str),
    In alias (get (aliases data) []) ->
    strip alias = alias ->
    Forall (fun kd => topic_matches (lower alias) (fst kd) (snd kd) = false)
           before ->
    get_ai_response (before ++ (key, data) :: after) speaker alias
    = strip (topic_response key data).
Proof.
  intros before after key alias data speaker Hin Hstrip Hbefore.
  apply get_ai_response_matched.
  rewrite strip_lower, Hstrip.
  apply matched_topic_skip; [exact Hbefore|].
  unfold topic_matches. apply existsb_exists. exists (lower alias).
  split; [|apply trigger_hit_self].
  unfold triggers. simpl. right. now apply in_map.
Qed.

Lemma alias_brings_topic_reply_witness :
  In (lit "coffee") [lit "coffee"] /\
  strip (lit "coffee") = lit "coffee" /\
  get_ai_response
    ([] ++ (lit "CoffeeShop",
            mkTopic (Some [lit "coffee"]) (Some (lit "Best beans in town"))
                    None None None) :: [])
    (lit "Alex") (lit "coffee")
  = lit "Regarding CoffeeShop:" ++ nl ++ lit "Best beans in town".
Proof.
  split; [left; reflexivity|]. split; [reflexivity|].
  apply (alias_brings_topic_reply [] []
           (lit "CoffeeShop") (lit "coffee")
           (mkTopic (Some [lit "coffee"]) (Some (lit "Best beans in town"))
                    None None None)
           (lit "Alex")).
  - left. reflexivity.
  - reflexivity.
  - constructor.
Defined.

(* ================================================================== *)
(** ** More about the handlers *)

Section HandlerFrames.

Variable env : Env.

(** The globals are left alone by [send_osc_to_vrchat]. *)
Lemma send_osc_to_vrchat_client (address : str) (args : list osc_arg) (w : World) :
  vrchat_osc_client (snd (send_osc_to_vrchat env address args w))
  = vrchat_osc_client w.
Proof.
  unfold send_osc_to_vrchat, bind, read, try_except, client_send_message,
    print, index, ret.
  destruct (vrchat_osc_client w) as [c|] eqn:Hc; simpl; [|exact Hc].
  destruct (send_message env c address args); simpl; [exact Hc|].
  destruct (negb (str_eqb address chatbox_address)); simpl; [|exact Hc].
  destruct (vrchat_client_ip (CONFIG w)); simpl; [|exact Hc].
  destruct (vrchat_client_port (CONFIG w)); simpl; exact Hc.
Qed.

Lemma handle_chat_message_effect (playerName playerId : str) (message : osc_arg)
    (w : World) :
  fst (handle_chat_message env playerName playerId message w) = Return tt /\
  CONFIG (snd (handle_chat_message env playerName playerId message w)) = CONFIG w /\
  knowledge_base (snd (handle_chat_message env playerName playerId message w))
    = knowledge_base w /\
  vrchat_osc_client (snd (handle_chat_message env playerName playerId message w))
    = vrchat_osc_client w /\
  http_out (snd (handle_chat_message env playerName playerId message w))
    = http_out w /\
  osc_out (snd (handle_chat_message env playerName playerId message w))
    = osc_out w ++ chat_output w playerName message.
Proof.
  unfold chat_output.
  destruct (chat_text message) as [text|] eqn:Htext.
  - destruct (handle_chat_message_valid env playerName playerId message text w Htext)
      as [w' [-> [Hcfg [Hkb [Hclient [Hosc Hhttp]]]]]].
    set (args := [OscBool true;
                  OscStr (ai_response_truncated
                            (get_ai_response (knowledge_base w) playerName text))]).
    destruct (send_osc_to_vrchat_effect env chatbox_address args w')
      as [-> [-> [-> [-> ->]]]].
    rewrite send_osc_to_vrchat_client.
    rewrite Hcfg, Hkb, Hclient, Hosc, Hhttp. repeat split; reflexivity.
  - unfold handle_chat_message. rewrite Htext. unfold print. simpl.
    rewrite app_nil_r. repeat split; reflexivity.
Qed.

Lemma send_discord_notification_effect (message : str) (w : World) :
  fst (send_discord_notification env message w) = Return tt /\
  CONFIG (snd (send_discord_notification env message w)) = CONFIG w /\
  knowledge_base (snd (send_discord_notification env message w))
    = knowledge_base w /\
  vrchat_osc_client (snd (send_discord_notification env message w))
    = vrchat_osc_client w /\
  osc_out (snd (send_discord_notification env message w)) = osc_out w /\
  http_out (snd (send_discord_notification env message w))
    = http_out w ++ webhook_posts (CONFIG w) message.
Proof.
  unfold webhook_posts, send_discord_notification, bind, read, ret.
  destruct (discord_webhook_url (CONFIG w)) as [[|c url]|] eqn:Hurl;
    cbn [get truthy negb];
    try (rewrite app_nil_r; repeat split; reflexivity).
  replace (match get (owner_discord_ids (CONFIG w)) [] with
           | [] => []
           | _ :: _ => join (lit " ") (get (owner_discord_ids (CONFIG w)) [])
           end)
    with (join (lit " ") (get (owner_discord_ids (CONFIG w)) []))
    by (destruct (get (owner_discord_ids (CONFIG w)) []); reflexivity).
  set (req := mkPost (c :: url) _ 10).
  unfold try_except, bind, post, raise_for_status, print, raise, ret.
  destruct (requests_post env req) as [status_code|e]; cbn [fst snd].
  - destruct ((400 <=? status_code) && (status_code <? 600)); cbn;
      repeat split; reflexivity.
  - destruct (exn_cls e); cbn; repeat split; reflexivity.
Qed.

(** Every reply has a first character. *)
Lemma reply_head (kb : KnowledgeBase) (player_name message : str) :
  exists c r, get_ai_response kb player_name message = c :: r.
Proof.
  unfold get_ai_response.
  destruct (matched_topic kb (strip (lower message))) as [[key data]|];
    cbv beta iota zeta; simpl negb; cbv iota.
  - rewrite strip_topic_response. simpl. eauto.
  - repeat match goal with
           | |- context [if ?b then _ else _] => destruct b
           end;
      (rewrite ?strip_hello_response, ?strip_help_response,
         ?strip_welcome_response, ?strip_sorry_response);
      unfold hello_response, help_response, welcome_response, sorry_response;
      simpl; eauto.
Qed.

Lemma ai_response_truncated_length (ai_response : str) :
  List.length (ai_response_truncated ai_response)
  = Nat.min 144 (List.length ai_response).
Proof.
  destruct (Nat.lt_ge_cases 144 (List.length ai_response)) as [Hlong | Hshort].
  - destruct (ai_response_truncated_long ai_response Hlong) as [-> _]. lia.
  - rewrite (ai_response_truncated_short ai_response Hshort). lia.
Qed.

End HandlerFrames.

(** X8. Whatever the store and the message, the text the chat handler puts
    on the wire is addressed to the Chatbox parameter, led by the trigger
    [True], and has between 1 and 144 characters; nothing else is handed to
    the OSC client by the handler. *)
Theorem chatbox_text_within_limit :
  forall (env : Env) (playerName playerId : str) (message : osc_arg) (w : World),
    osc_out (snd (handle_chat_message env playerName playerId message w))
      = osc_out w ++ chat_output w playerName message /\
    Forall (fun sent =>
              fst sent = chatbox_address /\
              exists s, snd sent = [OscBool true; OscStr s] /\
                        1 <= List.length s <= 144)
           (chat_output w playerName message).
Proof.
  intros env playerName playerId message w.
  split; [apply handle_chat_message_effect|].
  unfold chat_output.
  destruct (chat_text message) as [text|]; [|constructor].
  destruct (vrchat_osc_client w); constructor; [|constructor].
  split; [reflexivity|]. eexists. split; [reflexivity|].
  rewrite ai_response_truncated_length.
  destruct (reply_head (knowledge_base w) playerName text) as [c [r ->]].
  simpl List.length. lia.
Qed.

(** X9. The chat handler keeps no conversation state: it leaves the
    configuration, the knowledge base and the client as they were, so after
    any first message the second one is answered exactly as it would have
    been in the original state, and the two outputs follow each other on the
    wire. *)
Theorem chat_handler_is_stateless :
  forall (env : Env) (name1 id1 : str) (message1 : osc_arg)
         (name2 id2 : str) (message2 : osc_arg) (w : World),
    knowledge_base (snd (handle_chat_message env name1 id1 message1 w))
      = knowledge_base w /\
    CONFIG (snd (handle_chat_message env name1 id1 message1 w)) = CONFIG w /\
    vrchat_osc_client (snd (handle_chat_message env name1 id1 message1 w))
      = vrchat_osc_client w /\
    osc_out (snd (handle_chat_message env name2 id2 message2
                    (snd (handle_chat_message env name1 id1 message1 w))))
      = osc_out w ++ chat_output w name1 message1 ++ chat_output w name2 message2.
Proof.
  intros env name1 id1 message1 name2 id2 message2 w.
  destruct (handle_chat_message_effect env name1 id1 message1 w)
    as [_ [Hcfg [Hkb [Hclient [_ Hosc]]]]].
  destruct (handle_chat_message_effect env name2 id2 message2
              (snd (handle_chat_message env name1 id1 message1 w)))
    as [_ [_ [_ [_ [_ Hosc2]]]]].
  repeat split; auto.
  rewrite Hosc2, Hosc, <- app_assoc. do 2 f_equal.
  unfold chat_output. now rewrite Hkb, Hclient.
Qed.

Section Logging.

Variable env : Env.

Lemma str_eqb_chatbox (address : str) :
  str_eqb address chatbox_address = true <-> address = chatbox_address.
Proof. apply str_eqb_eq. Qed.

Lemma strip_after_newline (message : str) : strip (nl ++ message) = strip message.
Proof. now apply strip_leading_blank. Qed.

End Logging.





(** X12. With a webhook URL set and no owner ids (the key absent or the list
    empty), the newline that separates mentions from message does not
    survive: the content posted is just the trimmed message. *)
Theorem notification_without_owners :
  forall (env : Env) (message : str) (w : World) (c : ascii) (url : str),
    discord_webhook_url (CONFIG w) = Some (c :: url) ->
    get (owner_discord_ids (CONFIG w)) [] = [] ->
    http_out (snd (send_discord_notification env message w))
    = http_out w ++ [mkPost (c :: url) (strip message) 10].
Proof.
  intros env message w c url Hurl Howners.
  destruct (send_discord_notification_effect env message w)
    as [_ [_ [_ [_ [_ ->]]]]].
  unfold webhook_posts. rewrite Hurl, Howners. simpl join.
  now rewrite app_nil_l, strip_after_newline.
Qed.

Lemma notification_without_owners_witness :
  http_out (snd (send_discord_notification quiet_env (lit " door opened ")
                   (mkWorld (mkConfig (Some (lit "https://discord.example/hook"))
                                      (Some []) None None None)
                            [] None [] [] [])))
  = [] ++ [mkPost (lit "https://discord.example/hook") (lit "door opened") 10].
Proof.
  exact (notification_without_owners quiet_env (lit " door opened ")
           (mkWorld (mkConfig (Some (lit "https://discord.example/hook"))
                              (Some []) None None None)
                    [] None [] [] [])
           "h"%char (lit "ttps://discord.example/hook") eq_refl eq_refl).
Defined.

(* ================================================================== *)
(** ** Start-up and the interaction handler *)

Section HostFacts.

Lemma core_fst {A : Type} (m : M A) (h : Host) :
  fst (core m h) = fst (m (world h)).
Proof. unfold core. now destruct (m (world h)). Qed.

Lemma core_world {A : Type} (m : M A) (h : Host) :
  world (snd (core m h)) = snd (m (world h)).
Proof. unfold core. now destruct (m (world h)). Qed.

Lemma core_dump_attempts {A : Type} (m : M A) (h : Host) :
  dump_attempts (snd (core m h)) = dump_attempts h.
Proof. unfold core. now destruct (m (world h)). Qed.

(** The alert text begins with a colon and ends with a closing bracket. *)
Lemma notification_message_shape
    (timestamp itemId itemName playerName playerId : str) :
  notification_message timestamp itemId itemName playerName playerId
  = ":"%char ::
    (lit "bell: **Item Interaction Alert** (" ++ timestamp ++ lit " UTC)" ++ nl ++
     lit "> **Player:** `" ++ playerName ++ lit "` (ID: `" ++ playerId ++
     lit "`)" ++ nl ++
     lit "> **Item:** `" ++ itemName ++ lit "` (ID: `" ++ itemId ++ lit "`")
    ++ [")"%char].
Proof.
  unfold notification_message.
  repeat (simpl; rewrite <- ?app_assoc). reflexivity.
Qed.

Lemma notification_message_mentions
    (timestamp itemId itemName playerName playerId : str) :
  str_in itemId
    (notification_message timestamp itemId itemName playerName playerId) = true /\
  str_in itemName
    (notification_message timestamp itemId itemName playerName playerId) = true /\
  str_in playerName
    (notification_message timestamp itemId itemName playerName playerId) = true /\
  str_in playerId
    (notification_message timestamp itemId itemName playerName playerId) = true /\
  str_in timestamp
    (notification_message timestamp itemId itemName playerName playerId) = true.
Proof.
  unfold notification_message.
  repeat split;
    repeat first [ apply str_in_prefix | apply str_in_app_r ].
Qed.

End HostFacts.

Section StartUp.

Variable sys : Sys.

Lemma update_complete (user_config : Config) :
  complete (update DEFAULT_CONFIG user_config) = true.
Proof.
  destruct user_config as [[?|] [?|] [?|] [?|] [?|]]; reflexivity.
Qed.

Lemma resolved_config_complete : complete (resolved_config sys) = true.
Proof.
  unfold resolved_config.
  destruct (path_exists sys (lit "config.json")); [|reflexivity].
  destruct (load_user_config sys (lit "config.json"));
    [apply update_complete | reflexivity].
Qed.

(** What [load_config] does to the state, outcome by outcome. *)
Lemma load_config_effect (h : Host) :
  match fst (load_config sys h) with
  | Return _ =>
      CONFIG (world (snd (load_config sys h))) = resolved_config sys /\
      (path_exists sys (lit "config.json") = false ->
       dump_default sys (lit "config.json") = Dumped \/
       exists e, dump_default sys (lit "config.json") = DumpIOError e)
  | Raise e =>
      path_exists sys (lit "config.json") = false /\
      dump_default sys (lit "config.json") = DumpOtherError e /\
      CONFIG (world (snd (load_config sys h))) = CONFIG (world h)
  end /\
  knowledge_base (world (snd (load_config sys h))) = knowledge_base (world h) /\
  vrchat_osc_client (world (snd (load_config sys h)))
    = vrchat_osc_client (world h) /\
  osc_out (world (snd (load_config sys h))) = osc_out (world h) /\
  http_out (world (snd (load_config sys h))) = http_out (world h) /\
  dump_attempts (snd (load_config sys h))
    = dump_attempts h ++
      (if path_exists sys (lit "config.json") then [] else [lit "config.json"]).
Proof.
  unfold load_config, resolved_config, hbind, htry, say, core, hret,
    create_default_config, open_and_load_config, assign_CONFIG.
  destruct (path_exists sys (lit "config.json")) eqn:Hexists; cbn [negb].
  - destruct (load_user_config sys (lit "config.json")) as [user|e];
      cbn -[update DEFAULT_CONFIG].
    + destruct (truthy (get (discord_webhook_url (update DEFAULT_CONFIG user)) []));
        destruct (get (owner_discord_ids (update DEFAULT_CONFIG user)) []);
        cbn -[update DEFAULT_CONFIG]; rewrite app_nil_r;
        repeat split; try reflexivity; discriminate.
    + destruct (exn_cls e); cbn; rewrite app_nil_r;
        repeat split; try reflexivity; discriminate.
  - destruct (dump_default sys (lit "config.json")) as [|e|e]; cbn;
      repeat split; try reflexivity; eauto.
Qed.

Lemma initialize_osc_client_effect (h : Host) :
  fst (initialize_osc_client sys h) = Return tt /\
  CONFIG (world (snd (initialize_osc_client sys h))) = CONFIG (world h) /\
  knowledge_base (world (snd (initialize_osc_client sys h)))
    = knowledge_base (world h) /\
  vrchat_osc_client (world (snd (initialize_osc_client sys h)))
    = resolved_client sys (CONFIG (world h)) /\
  osc_out (world (snd (initialize_osc_client sys h))) = osc_out (world h) /\
  http_out (world (snd (initialize_osc_client sys h))) = http_out (world h) /\
  dump_attempts (snd (initialize_osc_client sys h)) = dump_attempts h.
Proof.
  unfold initialize_osc_client, resolved_client, htry, hbind, core, read,
    new_client, say, assign_vrchat_osc_client.
  cbn.
  destruct (construct_client sys _ _); cbn; repeat split; reflexivity.
Qed.

End StartUp.

Section StartUpFrames.

Lemma load_knowledge_base_frame (env : Env) (w : World) :
  CONFIG (snd (load_knowledge_base env w)) = CONFIG w /\
  vrchat_osc_client (snd (load_knowledge_base env w)) = vrchat_osc_client w /\
  osc_out (snd (load_knowledge_base env w)) = osc_out w /\
  http_out (snd (load_knowledge_base env w)) = http_out w.
Proof.
  unfold load_knowledge_base, bind, read, try_except, open_and_load,
    assign_knowledge_base, print, raise, ret.
  simpl.
  destruct (json_load env _) as [kb|e]; simpl; [auto|].
  destruct (exn_cls e); simpl; auto.
Qed.

Lemma update_fields (user_config : Config) :
  discord_webhook_url (update DEFAULT_CONFIG user_config)
    = Some (get (discord_webhook_url user_config) (lit "")) /\
  owner_discord_ids (update DEFAULT_CONFIG user_config)
    = Some (get (owner_discord_ids user_config) []) /\
  knowledge_base_file (update DEFAULT_CONFIG user_config)
    = Some (get (knowledge_base_file user_config) (lit "knowledge_base.json")) /\
  vrchat_client_ip (update DEFAULT_CONFIG user_config)
    = Some (get (vrchat_client_ip user_config) (lit "127.0.0.1")) /\
  vrchat_client_port (update DEFAULT_CONFIG user_config)
    = Some (get (vrchat_client_port user_config) 9000%N).
Proof.
  destruct user_config as [[?|] [?|] [?|] [?|] [?|]]; repeat split; reflexivity.
Qed.

End StartUpFrames.

(** X14. Whenever [load_config] returns, every key of the defaults is
    present in [CONFIG]: a key the configuration file sets has the file's
    value, a key it leaves out has the default; and when the file is missing
    or cannot be decoded, [CONFIG] is exactly the defaults. *)
Theorem load_config_fills_every_key :
  forall (sys : Sys) (h : Host),
    fst (load_config sys h) = Return tt ->
    complete (CONFIG (world (snd (load_config sys h)))) = true /\
    (forall user_config,
        path_exists sys (lit "config.json") = true ->
        load_user_config sys (lit "config.json") = inl user_config ->
        discord_webhook_url (CONFIG (world (snd (load_config sys h))))
          = Some (get (discord_webhook_url user_config) (lit "")) /\
        owner_discord_ids (CONFIG (world (snd (load_config sys h))))
          = Some (get (owner_discord_ids user_config) []) /\
        knowledge_base_file (CONFIG (world (snd (load_config sys h))))
          = Some (get (knowledge_base_file user_config)
                      (lit "knowledge_base.json")) /\
        vrchat_client_ip (CONFIG (world (snd (load_config sys h))))
          = Some (get (vrchat_client_ip user_config) (lit "127.0.0.1")) /\
        vrchat_client_port (CONFIG (world (snd (load_config sys h))))
          = Some (get (vrchat_client_port user_config) 9000%N)) /\
    (path_exists sys (lit "config.json") = false \/
     (exists e, load_user_config sys (lit "config.json") = inr e) ->
     CONFIG (world (snd (load_config sys h))) = DEFAULT_CONFIG).
Proof.
  intros sys h Hret.
  destruct (load_config_effect sys h) as [Hcfg _].
  rewrite Hret in Hcfg. destruct Hcfg as [Hcfg _]. rewrite Hcfg.
  split; [apply resolved_config_complete|]. split.
  - intros user Hexists Hload. unfold resolved_config.
    rewrite Hexists, Hload. apply update_fields.
  - unfold resolved_config. intros [Hmissing | [e Hload]].
    + now rewrite Hmissing.
    + rewrite Hload. now destruct (path_exists sys (lit "config.json")).
Qed.

Lemma load_config_fills_every_key_witness :
  fst (load_config sample_sys fresh_host) = Return tt /\
  CONFIG (world (snd (load_config sample_sys fresh_host)))
  = mkConfig (Some (lit "https://discord.example/hook")) (Some [lit "<@1>"])
             (Some (lit "knowledge_base.json")) (Some (lit "127.0.0.1"))
             (Some 9000%N) /\
  complete (CONFIG (world (snd (load_config sample_sys fresh_host)))) = true.
Proof.
  split; [reflexivity|]. split; [reflexivity|].
  exact (proj1 (load_config_fills_every_key sample_sys fresh_host eq_refl)).
Defined.

(** X15. [load_config] never writes over a configuration file that exists,
    even one it cannot decode, and then always returns; it attempts to write
    the defaults exactly once when the file is missing, and an [IOError] on
    that write is not fatal.  The only exception it lets escape is one of
    another class raised by that write, and then [CONFIG] is left as it was.
    It never touches the knowledge base, the client or the outputs. *)
Theorem load_config_writes_only_when_missing :
  forall (sys : Sys) (h : Host),
    dump_attempts (snd (load_config sys h))
      = dump_attempts h ++
        (if path_exists sys (lit "config.json") then [] else [lit "config.json"]) /\
    (forall e,
        fst (load_config sys h) = Raise e <->
        path_exists sys (lit "config.json") = false /\
        dump_default sys (lit "config.json") = DumpOtherError e) /\
    (forall e,
        fst (load_config sys h) = Raise e ->
        CONFIG (world (snd (load_config sys h))) = CONFIG (world h)) /\
    knowledge_base (world (snd (load_config sys h))) = knowledge_base (world h) /\
    vrchat_osc_client (world (snd (load_config sys h)))
      = vrchat_osc_client (world h) /\
    osc_out (world (snd (load_config sys h))) = osc_out (world h) /\
    http_out (world (snd (load_config sys h))) = http_out (world h).
Proof.
  intros sys h.
  destruct (load_config_effect sys h)
    as [Hout [Hkb [Hclient [Hosc [Hhttp Hdump]]]]].
  split; [exact Hdump|]. split; [|split; [|auto]].
  - intros e. destruct (fst (load_config sys h)) as [[]|e'].
    + destruct Hout as [_ Hdumped]. split; [discriminate|].
      intros [Hmissing Hother].
      destruct (Hdumped Hmissing) as [H | [e0 H]]; congruence.
    + destruct Hout as [Hmissing [Hother _]]. split.
      * intros H. injection H as <-. auto.
      * intros [_ H]. rewrite H in Hother. now injection Hother as ->.
  - intros e He. rewrite He in Hout. apply Hout.
Qed.


(** X17. When the three initialisation calls of the main block return,
    [CONFIG] is the resolved configuration with every key present, the
    client is the one built for its peer (or [None] if the constructor
    raised), and the knowledge base holds the topics of the file it names.
    The initialisation fails only through the exception [load_config] lets
    escape.  In no case is an OSC message or an HTTP request sent. *)
Theorem main_initialisation_result :
  forall (sys : Sys) (env : Env) (h : Host),
    match fst (main_initialisation sys env h) with
    | Return _ =>
        CONFIG (world (snd (main_initialisation sys env h)))
          = resolved_config sys /\
        complete (CONFIG (world (snd (main_initialisation sys env h)))) = true /\
        vrchat_osc_client (world (snd (main_initialisation sys env h)))
          = resolved_client sys (resolved_config sys) /\
        knowledge_base (world (snd (main_initialisation sys env h)))
          = file_topics env (resolved_config sys)
    | Raise e =>
        path_exists sys (lit "config.json") = false /\
        dump_default sys (lit "config.json") = DumpOtherError e
    end /\
    osc_out (world (snd (main_initialisation sys env h))) = osc_out (world h) /\
    http_out (world (snd (main_initialisation sys env h))) = http_out (world h).
Proof.
  intros sys env h. unfold main_initialisation, hbind.
  destruct (load_config_effect sys h) as [Hout [_ [_ [Hosc [Hhttp _]]]]].
  destruct (load_config sys h) as [[[]|e] h1]; cbn [fst snd] in *.
  - destruct Hout as [Hcfg _].
    destruct (initialize_osc_client_effect sys h1)
      as [Hret [Hcfg2 [_ [Hclient [Hosc2 [Hhttp2 _]]]]]].
    destruct (initialize_osc_client sys h1) as [[[]|e] h2]; cbn [fst snd] in *;
      [|discriminate].
    rewrite core_fst, core_world.
    destruct (load_knowledge_base_effect env (world h2)) as [-> ->].
    destruct (load_knowledge_base_frame env (world h2)) as [-> [-> [-> ->]]].
    rewrite Hcfg2, Hcfg, Hclient, Hcfg, Hosc2, Hhttp2.
    repeat split; auto. apply resolved_config_complete.
  - destruct Hout as [Hmissing [Hother _]]. auto.
Qed.

(** X18. A reply begins with "Regarding " exactly when a topic of the store
    matched the message: none of the four fallback replies can be mistaken
    for a topic reply, whatever the speaker name. *)
Theorem topic_replies_are_recognisable :
  forall (store : KnowledgeBase) (speaker message : str),
    startswith (get_ai_response store speaker message) (lit "Regarding ")
    = match matched_topic store (strip (lower message)) with
      | Some _ => true
      | None => false
      end.
Proof.
  intros store speaker message. unfold get_ai_response.
  destruct (matched_topic store (strip (lower message))) as [[key data]|];
    cbv beta iota zeta; simpl negb; cbv iota.
  - rewrite strip_topic_response, <- !app_assoc.
    apply startswith_iff. eexists. reflexivity.
  - repeat match goal with
           | |- context [if ?b then _ else _] => destruct b
           end;
      (rewrite ?strip_hello_response, ?strip_help_response,
         ?strip_welcome_response, ?strip_sorry_response);
      reflexivity.
Qed.

(** The interaction scenario of the specification, after a start-up on
    [sample_sys]. *)
Example vending_machine_scenario :
  map content
      (http_out (world (snd (handle_interaction sample_sys quiet_env
                               (lit "42") (lit "Vending Machine")
                               (lit "Sam") (lit "99")
                               (snd (main_initialisation sample_sys quiet_env
                                       fresh_host))))))
  = [lit "<@1>" ++ nl ++
     lit ":bell: **Item Interaction Alert** (2024-01-01 12:00:00 UTC)" ++ nl ++
     lit "> **Player:** `Sam` (ID: `99`)" ++ nl ++
     lit "> **Item:** `Vending Machine` (ID: `42`)"].
Proof. vm_compute. reflexivity. Qed.

(* ================================================================== *)
(** ** The knowledge base as a JSON value *)

Section RawStore.

Variable str_of : Json -> str.

Lemma lower_each_strings (l : list str) :
  lower_each (map JString l) = Return (map lower l).
Proof.
  induction l as [|s l IH]; simpl; [reflexivity|]. now rewrite IH.
Qed.





Lemma raw_triggers_typed (key : str) (data : TopicRecord) :
  raw_triggers key (topic_to_json data) = Return (triggers key data).
Proof.
  unfold raw_triggers, triggers, topic_to_json.
  destruct data as [[al|] [de|] [dt|] [ws|] [ct|]]; simpl;
    rewrite ?lower_each_strings; reflexivity.
Qed.

Lemma raw_topic_response_typed (key : str) (data : TopicRecord) :
  raw_topic_response str_of key (topic_to_json data)
  = Return (topic_response key data).
Proof.
  unfold raw_topic_response, topic_response, topic_to_json.
  destruct data as [[al|] [de|] [dt|] [ws|] [ct|]]; reflexivity.
Qed.

Lemma raw_matched_topic_typed (kb : KnowledgeBase) (text : str) :
  raw_matched_topic (map (fun kd => (fst kd, topic_to_json (snd kd))) kb) text
  = Return (option_map (fun kd => (fst kd, topic_to_json (snd kd)))
                       (matched_topic kb text)).
Proof.
  induction kb as [|[key data] kb IH]; simpl; [reflexivity|].
  rewrite raw_triggers_typed. unfold rbind, topic_matches.
  destruct (existsb (trigger_hit text) (triggers key data));
    [reflexivity|exact IH].
Qed.

(** On a store of typed topic records the function over JSON values
    returns what [get_ai_response] returns. *)
Lemma raw_get_ai_response_typed (kb : KnowledgeBase) (player_name message : str) :
  raw_get_ai_response str_of (store_to_json kb) player_name message
  = Return (get_ai_response kb player_name message).
Proof.
  unfold raw_get_ai_response, get_ai_response, store_to_json.
  rewrite raw_matched_topic_typed.
  destruct (matched_topic kb (strip (lower message))) as [[key data]|];
    cbn [rbind option_map fst snd negb].
  - now rewrite raw_topic_response_typed.
  - unfold help_response. now rewrite map_map.
Qed.

End RawStore.




(* ================================================================== *)
(** ** The configuration as a JSON dictionary *)

Section RawConfig.

Variable env : Env.
Variable str_of : Json -> str.

Lemma join_items_strings (i : nat) (ids : list str) :
  join_items i (map JString ids) = Return ids.
Proof.
  revert i. induction ids as [|s ids IH]; intros i; simpl; [reflexivity|].
  now rewrite IH.
Qed.

Lemma py_join_strings (sep : str) (ids : list str) :
  py_join sep (JArray (map JString ids)) = Return (join sep ids).
Proof.
  unfold py_join. simpl. now rewrite join_items_strings.
Qed.

(** The mentions computed from owner ids that are absent, false as a truth
    value, or an array of strings. *)
Lemma owner_pings_shaped (owner_ids : Json) (ids : list str) (w : World) :
  owner_ids = JArray (map JString ids) \/ (py_bool owner_ids = false /\ ids = []) ->
  (if py_bool owner_ids then lift_result (py_join (lit " ") owner_ids)
   else ret []) w
  = (Return (join (lit " ") ids), w).
Proof.
  intros [-> | [Hfalse ->]].
  - destruct ids as [|s ids]; [reflexivity|].
    cbn [py_bool map]. unfold lift_result.
    now rewrite <- (py_join_strings (lit " ") (s :: ids)).
  - now rewrite Hfalse.
Qed.

Lemma guarded_post_effect (req : HttpPost) (w : World) :
  fst (guarded_post env req w) = Return tt /\
  CONFIG (snd (guarded_post env req w)) = CONFIG w /\
  knowledge_base (snd (guarded_post env req w)) = knowledge_base w /\
  vrchat_osc_client (snd (guarded_post env req w)) = vrchat_osc_client w /\
  osc_out (snd (guarded_post env req w)) = osc_out w /\
  http_out (snd (guarded_post env req w)) = http_out w ++ [req].
Proof.
  unfold guarded_post, try_except, bind, post, raise_for_status, print,
    raise, ret.
  destruct (requests_post env req) as [status_code|e]; cbn [fst snd].
  - destruct ((400 <=? status_code) && (status_code <? 600)); cbn;
      repeat split; reflexivity.
  - destruct (exn_cls e); cbn; repeat split; reflexivity.
Qed.

Lemma raw_send_discord_notification_url (config : list (str * Json))
    (message : str) (ids : list str) (w : World) :
  get (dict_get config (lit "owner_discord_ids")) (JArray [])
    = JArray (map JString ids) \/
  (py_bool (get (dict_get config (lit "owner_discord_ids")) (JArray [])) = false
   /\ ids = []) ->
  py_bool (get (dict_get config (lit "discord_webhook_url")) JNull) = true ->
  raw_send_discord_notification env str_of config message w
  = guarded_post env
      (mkPost (py_format str_of
                 (get (dict_get config (lit "discord_webhook_url")) JNull))
              (strip (join (lit " ") ids ++ nl ++ message)) 10) w.
Proof.
  intros Hids Hurl. unfold raw_send_discord_notification.
  rewrite Hurl. cbn [negb]. unfold bind at 1.
  now rewrite (owner_pings_shaped _ ids w Hids).
Qed.

(** Without a URL the function returns at once, whatever the owner ids. *)
Lemma raw_send_discord_notification_no_url (config : list (str * Json))
    (message : str) (w : World) :
  py_bool (get (dict_get config (lit "discord_webhook_url")) JNull) = false ->
  raw_send_discord_notification env str_of config message w = (Return tt, w).
Proof.
  intros H. unfold raw_send_discord_notification. now rewrite H.
Qed.

Lemma config_to_json_url (cfg : Config) :
  get (dict_get (config_to_json cfg) (lit "discord_webhook_url")) JNull
  = match discord_webhook_url cfg with
    | Some url => JString url
    | None => JNull
    end.
Proof. destruct cfg as [[?|] [?|] [?|] [?|] [?|]]; reflexivity. Qed.

Lemma config_to_json_owner_ids (cfg : Config) :
  get (dict_get (config_to_json cfg) (lit "owner_discord_ids")) (JArray [])
  = JArray (map JString (get (owner_discord_ids cfg) [])).
Proof. destruct cfg as [[?|] [?|] [?|] [?|] [?|]]; reflexivity. Qed.

Lemma send_discord_notification_unfolded (message : str) (w : World) :
  send_discord_notification env message w
  = match discord_webhook_url (CONFIG w) with
    | Some (c :: url) =>
        guarded_post env
          (mkPost (c :: url)
                  (strip (join (lit " ") (get (owner_discord_ids (CONFIG w)) [])
                          ++ nl ++ message)) 10) w
    | _ => (Return tt, w)
    end.
Proof.
  unfold send_discord_notification, bind, read, ret.
  destruct (discord_webhook_url (CONFIG w)) as [[|c url]|];
    cbn [get truthy negb]; try reflexivity.
  replace (match get (owner_discord_ids (CONFIG w)) [] with
           | [] => []
           | _ :: _ => join (lit " ") (get (owner_discord_ids (CONFIG w)) [])
           end)
    with (join (lit " ") (get (owner_discord_ids (CONFIG w)) []))
    by (destruct (get (owner_discord_ids (CONFIG w)) []); reflexivity).
  reflexivity.
Qed.

(** Over the dictionary of a typed configuration the function does what
    [send_discord_notification] does. *)
Lemma raw_send_discord_notification_typed (message : str) (w : World) :
  raw_send_discord_notification env str_of (config_to_json (CONFIG w)) message w
  = send_discord_notification env message w.
Proof.
  rewrite send_discord_notification_unfolded.
  destruct (discord_webhook_url (CONFIG w)) as [[|c url]|] eqn:Hurl.
  - apply raw_send_discord_notification_no_url.
    now rewrite config_to_json_url, Hurl.
  - rewrite (raw_send_discord_notification_url (config_to_json (CONFIG w))
               message (get (owner_discord_ids (CONFIG w)) []) w).
    + now rewrite config_to_json_url, Hurl.
    + left. apply config_to_json_owner_ids.
    + now rewrite config_to_json_url, Hurl.
  - apply raw_send_discord_notification_no_url.
    now rewrite config_to_json_url, Hurl.
Qed.

End RawConfig.

(** C7, as stated, fails.  With a webhook URL set and owner ids given as
    JSON numbers, the join of the owner ids, which precedes the [try]
    block, raises [TypeError] to the caller and no POST is issued. *)
Lemma notification_counterexample :
  fst (raw_send_discord_notification quiet_env no_str_of numeric_owner_config
         (lit "ping") world_without_client)
    = Raise (mkExn OtherException
               (lit "sequence item 0: expected str instance, int found")) /\
  http_out (snd (raw_send_discord_notification quiet_env no_str_of
                   numeric_owner_config (lit "ping") world_without_client))
    = [].
Proof. split; vm_compute; reflexivity. Qed.

(** C7, amended.  When no webhook URL is configured, the notifier performs
    no HTTP call, changes nothing and returns normally, whatever else the
    configuration holds.  When a URL is configured and the owner ids are
    absent, false as a truth value, or an array of strings, it issues
    exactly one POST to that URL with the 10-second timeout, whose JSON body
    content is the space-joined owner mentions, a newline and the message,
    trimmed, and it returns normally whatever the status code or the
    transport error. *)
Theorem shaped_notification_post :
  forall (env : Env) (str_of : Json -> str) (config : list (str * Json))
         (message : str) (w : World),
    (py_bool (get (dict_get config (lit "discord_webhook_url")) JNull) = false ->
     raw_send_discord_notification env str_of config message w = (Return tt, w)) /\
    (forall ids,
        get (dict_get config (lit "owner_discord_ids")) (JArray [])
          = JArray (map JString ids) \/
        (py_bool (get (dict_get config (lit "owner_discord_ids")) (JArray []))
           = false /\ ids = []) ->
        py_bool (get (dict_get config (lit "discord_webhook_url")) JNull) = true ->
        fst (raw_send_discord_notification env str_of config message w)
          = Return tt /\
        osc_out (snd (raw_send_discord_notification env str_of config message w))
          = osc_out w /\
        http_out (snd (raw_send_discord_notification env str_of config message w))
          = http_out w ++
            [mkPost (py_format str_of
                       (get (dict_get config (lit "discord_webhook_url")) JNull))
                    (strip (join (lit " ") ids ++ nl ++ message)) 10]).
Proof.
  intros env str_of config message w. split.
  - apply raw_send_discord_notification_no_url.
  - intros ids Hids Hurl.
    rewrite (raw_send_discord_notification_url env str_of config message ids w
               Hids Hurl).
    destruct (guarded_post_effect env
                (mkPost (py_format str_of
                           (get (dict_get config (lit "discord_webhook_url")) JNull))
                        (strip (join (lit " ") ids ++ nl ++ message)) 10) w)
      as [H1 [_ [_ [_ [H2 H3]]]]].
    auto.
Qed.

(** X13. With owner ids that are absent, false as a truth value, or an
    array of strings, [handle_interaction] returns normally and never talks
    to VRChat; without a webhook URL it issues no request, and with one it
    issues exactly one POST whose content is the owner mentions and newline
    (leading blanks removed) followed by the complete alert text, which
    contains the player name and id and the item name and id as they came
    in. *)
Theorem interaction_alert_delivered :
  forall (sys : Sys) (env : Env) (str_of : Json -> str)
         (config : list (str * Json)) (ids : list str)
         (itemId itemName playerName playerId : str) (h : Host),
    get (dict_get config (lit "owner_discord_ids")) (JArray [])
      = JArray (map JString ids) \/
    (py_bool (get (dict_get config (lit "owner_discord_ids")) (JArray []))
       = false /\ ids = []) ->
    fst (raw_handle_interaction sys env str_of config itemId itemName playerName
           playerId h) = Return tt /\
    osc_out (world (snd (raw_handle_interaction sys env str_of config itemId
                           itemName playerName playerId h)))
      = osc_out (world h) /\
    http_out (world (snd (raw_handle_interaction sys env str_of config itemId
                            itemName playerName playerId h)))
      = http_out (world h) ++
        (if py_bool (get (dict_get config (lit "discord_webhook_url")) JNull)
         then
           [mkPost (py_format str_of
                      (get (dict_get config (lit "discord_webhook_url")) JNull))
                   (lstrip (join (lit " ") ids ++ nl)
                    ++ notification_message (strftime_now sys) itemId itemName
                         playerName playerId)
                   10]
         else []) /\
    str_in itemId (notification_message (strftime_now sys) itemId itemName
                     playerName playerId) = true /\
    str_in itemName (notification_message (strftime_now sys) itemId itemName
                       playerName playerId) = true /\
    str_in playerName (notification_message (strftime_now sys) itemId itemName
                         playerName playerId) = true /\
    str_in playerId (notification_message (strftime_now sys) itemId itemName
                       playerName playerId) = true.
Proof.
  intros sys env str_of config ids itemId itemName playerName playerId h Hids.
  unfold raw_handle_interaction, hbind, say. cbn [fst snd].
  set (msg := notification_message (strftime_now sys) itemId itemName
                playerName playerId).
  set (h1 := mkHost (world h) _ (dump_attempts h)).
  change (world h) with (world h1).
  rewrite core_fst, core_world.
  destruct (notification_message_mentions (strftime_now sys) itemId itemName
              playerName playerId) as [H1 [H2 [H3 [H4 _]]]].
  fold msg in H1, H2, H3, H4.
  destruct (py_bool (get (dict_get config (lit "discord_webhook_url")) JNull))
    eqn:Hurl.
  - rewrite (raw_send_discord_notification_url env str_of config msg ids
               (world h1) Hids Hurl).
    destruct (guarded_post_effect env
                (mkPost (py_format str_of
                           (get (dict_get config (lit "discord_webhook_url")) JNull))
                        (strip (join (lit " ") ids ++ nl ++ msg)) 10) (world h1))
      as [-> [_ [_ [_ [-> ->]]]]].
    repeat split; auto.
    do 3 f_equal. unfold msg.
    rewrite notification_message_shape, app_assoc.
    now rewrite strip_prefixed.
  - rewrite (raw_send_discord_notification_no_url env str_of config msg
               (world h1) Hurl).
    cbn [fst snd]. rewrite app_nil_r. repeat split; auto.
Qed.

Lemma interaction_alert_delivered_witness :
  get (dict_get (config_to_json (CONFIG (world
         (snd (main_initialisation sample_sys quiet_env fresh_host)))))
         (lit "owner_discord_ids")) (JArray [])
    = JArray (map JString [lit "<@1>"]) /\
  map content
      (http_out (world (snd (raw_handle_interaction sample_sys quiet_env no_str_of
          (config_to_json (CONFIG (world
             (snd (main_initialisation sample_sys quiet_env fresh_host)))))
          (lit "42") (lit "Vending Machine") (lit "Sam") (lit "99")
          (snd (main_initialisation sample_sys quiet_env fresh_host))))))
  = [lit "<@1>" ++ nl ++
     lit ":bell: **Item Interaction Alert** (2024-01-01 12:00:00 UTC)" ++ nl ++
     lit "> **Player:** `Sam` (ID: `99`)" ++ nl ++
     lit "> **Item:** `Vending Machine` (ID: `42`)"].
Proof.
  split; [reflexivity|].
  destruct (interaction_alert_delivered sample_sys quiet_env no_str_of
              (config_to_json (CONFIG (world
                 (snd (main_initialisation sample_sys quiet_env fresh_host)))))
              [lit "<@1>"]
              (lit "42") (lit "Vending Machine") (lit "Sam") (lit "99")
              (snd (main_initialisation sample_sys quiet_env fresh_host))
              (or_introl eq_refl)) as [_ [_ [Hhttp _]]].
  rewrite Hhttp. reflexivity.
Defined.
